(** * json2csv: tweets stored as JSON, one per line, written out as CSV

    A shallow embedding of [json2csv.py] (Python 2): the cell formatter
    [fix], the lookup of a comma-separated field in a tweet, the extraction
    of the creation time, and the driver that writes the header and one row
    per tweet.

    Python values coming out of [json.loads] are modelled by the inductive
    type [json]; byte strings ([str]) are Rocq strings, text ([unicode]) is a
    list of code points.  Exceptions are values of [exn] carried by
    [result]; writes to the output file thread the text written so far.
    What the script prints on the console is left out.

    Two lines of the script are notes of its author and not Python: the
    one where the fields given with [--field] were to be added, and the one
    where the time columns of a row were to be written.  They are read as
    doing nothing. *)

From Stdlib Require Import ZArith NArith List String Ascii Bool Lia.
From Stdlib Require Import DecimalString.
Import ListNotations.

Open Scope string_scope.
Open Scope Z_scope.

(** ** Exceptions and results *)

Inductive exn : Type :=
| KeyError
| TypeError
| ValueError
| IndexError
| AttributeError
| NameError
| OverflowError
| UnicodeEncodeError.

Inductive result (A : Type) : Type :=
| Ok (a : A)
| Raise (e : exn).

Arguments Ok {A} a.
Arguments Raise {A} e.

Definition rbind {A B : Type} (r : result A) (k : A -> result B) : result B :=
  match r with
  | Ok a => k a
  | Raise e => Raise e
  end.

(** ** Characters and byte strings *)

Definition LF : ascii := "010"%char.
Definition CR : ascii := "013"%char.
Definition DQUOTE : ascii := "034"%char.

(** [s.replace(a, b)] for one-character [a] and [b]. *)
Fixpoint replace_char (a b : ascii) (s : string) : string :=
  match s with
  | EmptyString => EmptyString
  | String c s' =>
      String (if Ascii.eqb c a then b else c) (replace_char a b s')
  end.

Fixpoint occurs (a : ascii) (s : string) : bool :=
  match s with
  | EmptyString => false
  | String c s' => Ascii.eqb c a || occurs a s'
  end.

(** [sep.join(parts)] *)
Definition join (sep : string) (parts : list string) : string :=
  String.concat sep parts.

(** [s.split(",")]: always at least one piece. *)
Fixpoint split_on (sep : ascii) (s : string) : list string :=
  match s with
  | EmptyString => [""]
  | String c s' =>
      if Ascii.eqb c sep then "" :: split_on sep s'
      else match split_on sep s' with
           | [] => [String c ""]
           | p :: ps => String c p :: ps
           end
  end.

(** ** Text *)

(** A [unicode] object: its code points (below 0x110000). *)
Definition unicode : Type := list N.

Definition u (s : string) : unicode := map N_of_ascii (list_ascii_of_string s).

Fixpoint unicode_eqb (a b : unicode) : bool :=
  match a, b with
  | [], [] => true
  | x :: a', y :: b' => N.eqb x y && unicode_eqb a' b'
  | _, _ => false
  end.

(** Decoding of a byte string with the ASCII codec, as Python 2 does when
    it compares a [str] with a [unicode]; [None] when a byte is above 127. *)
Fixpoint decode_ascii (s : string) : option unicode :=
  match s with
  | EmptyString => Some []
  | String c s' =>
      let n := N_of_ascii c in
      if (n <? 128)%N
      then option_map (cons n) (decode_ascii s')
      else None
  end.

Definition byte (n : N) : ascii := ascii_of_N n.

(** UTF-8 bytes of one code point.  The codec of Python 2 encodes every
    code point, surrogates included, so the [xmlcharrefreplace] handler
    passed by [fix] is never called. *)
Definition utf8_cp (c : N) : string :=
  (if c <? 128 then String (byte c) ""
   else if c <? 2048 then
     String (byte (N.lor 192 (N.shiftr c 6)))
       (String (byte (N.lor 128 (N.land c 63))) "")
   else if c <? 65536 then
     String (byte (N.lor 224 (N.shiftr c 12)))
       (String (byte (N.lor 128 (N.land (N.shiftr c 6) 63)))
          (String (byte (N.lor 128 (N.land c 63))) ""))
   else
     String (byte (N.lor 240 (N.shiftr c 18)))
       (String (byte (N.lor 128 (N.land (N.shiftr c 12) 63)))
          (String (byte (N.lor 128 (N.land (N.shiftr c 6) 63)))
             (String (byte (N.lor 128 (N.land c 63))) ""))))%N.

(** [text.encode(encoding='UTF-8', errors='xmlcharrefreplace')] *)
Fixpoint utf8 (s : unicode) : string :=
  match s with
  | [] => ""
  | c :: s' => utf8_cp c ++ utf8 s'
  end.

(** ** Decimal and hexadecimal numerals *)

Definition dec (z : Z) : string := NilZero.string_of_int (Z.to_int z).

Definition hex_digit (n : N) : ascii :=
  match n with
  | 0 => "0" | 1 => "1" | 2 => "2" | 3 => "3" | 4 => "4" | 5 => "5"
  | 6 => "6" | 7 => "7" | 8 => "8" | 9 => "9" | 10 => "a" | 11 => "b"
  | 12 => "c" | 13 => "d" | 14 => "e" | _ => "f"
  end%N%char.

(** The [w] low hexadecimal digits of [n], most significant first. *)
Fixpoint hex (w : nat) (n : N) : string :=
  match w with
  | O => ""
  | S w' => hex w' (N.shiftr n 4) ++ String (hex_digit (N.land n 15)) ""
  end.

(** ** [repr] of a [unicode] object (UCS-4 build) *)

Definition has_cp (c : N) (s : unicode) : bool := existsb (N.eqb c) s.

Definition repr_quote (s : unicode) : N :=
  (if has_cp 39 s && negb (has_cp 34 s) then 34 else 39)%N.

Definition repr_cp (q c : N) : string :=
  (if (c =? q) || (c =? 92) then String "\" (String (byte c) "")
   else if 65536 <=? c then "\U" ++ hex 8 c
   else if 256 <=? c then "\u" ++ hex 4 c
   else if c =? 9 then "\t"
   else if c =? 10 then "\n"
   else if c =? 13 then "\r"
   else if (c <? 32) || (127 <=? c) then "\x" ++ hex 2 c
   else String (byte c) "")%N.

Definition repr_unicode (s : unicode) : string :=
  let q := repr_quote s in
  "u" ++ String (byte q) (join "" (map (repr_cp q) s)) ++ String (byte q) "".

(** ** [int(s)] on a byte string

    Base 10: blanks, an optional sign, blanks again (Python 2 skips them
    after the sign too), at least one digit, blanks; anything else is a
    [ValueError]. *)

Definition is_space (c : ascii) : bool :=
  let n := N_of_ascii c in
  ((n =? 32) || ((9 <=? n) && (n <=? 13)))%N.

Definition is_digit (c : ascii) : bool :=
  let n := N_of_ascii c in
  ((48 <=? n) && (n <=? 57))%N.

Fixpoint lstrip (s : string) : string :=
  match s with
  | EmptyString => EmptyString
  | String c s' => if is_space c then lstrip s' else s
  end.

Fixpoint digits (acc : Z) (s : string) : Z * string :=
  match s with
  | EmptyString => (acc, EmptyString)
  | String c s' =>
      if is_digit c
      then digits (10 * acc + (Z.of_N (N_of_ascii c) - 48)) s'
      else (acc, s)
  end.

Definition py_int (s : string) : result Z :=
  let s1 := lstrip s in
  let '(sign, s2) :=
    match s1 with
    | String "-" r => (-1, r)
    | String "+" r => (1, r)
    | _ => (1, s1)
    end in
  let s3 := lstrip s2 in
  match s3 with
  | EmptyString => Raise ValueError
  | String c _ =>
      if is_digit c
      then let '(n, rest) := digits 0 s3 in
           match lstrip rest with
           | EmptyString => Ok (sign * n)
           | String _ _ => Raise ValueError
           end
      else Raise ValueError
  end.

(** [l[i]] on a sequence: negative indices count from the end. *)
Definition seq_index {A : Type} (l : list A) (i : Z) : result A :=
  let n := Z.of_nat (List.length l) in
  let j := if i <? 0 then i + n else i in
  if (j <? 0) || (n <=? j) then Raise IndexError
  else match nth_error l (Z.to_nat j) with
       | Some x => Ok x
       | None => Raise IndexError
       end.

(** ** Writing to the output file

    A computation takes the text written so far and gives the text written
    when it stops, with its result or the exception that stopped it. *)

Definition io (A : Type) : Type := string -> string * result A.

Definition ret {A : Type} (a : A) : io A := fun out => (out, Ok a).

Definition bind {A B : Type} (m : io A) (k : A -> io B) : io B :=
  fun out =>
    match m out with
    | (out', Ok a) => k a out'
    | (out', Raise e) => (out', Raise e)
    end.

Definition lift {A : Type} (r : result A) : io A := fun out => (out, r).

(** [of.write(s)] *)
Definition write (s : string) : io unit := fun out => (out ++ s, Ok tt).

Notation "x <- m ;; k" := (bind m (fun x => k))
  (at level 61, m at next level, right associativity).
Notation "m ;; k" := (bind m (fun _ => k))
  (at level 61, right associativity).

(** A computation that raises whatever has been written before it. *)
Definition always_raises {A : Type} (m : io A) : Prop :=
  forall out, exists out' e, m out = (out', Raise e).

(** [for x in l: body(x)] *)
Fixpoint for_each {A : Type} (body : A -> io unit) (l : list A) : io unit :=
  match l with
  | [] => ret tt
  | x :: l' => body x ;; for_each body l'
  end.

(** [for i, x in enumerate(l): body(i, x)], counting from [i]. *)
Fixpoint for_enumerate {A : Type} (body : nat -> A -> io unit)
    (i : nat) (l : list A) : io unit :=
  match l with
  | [] => ret tt
  | x :: l' => body i x ;; for_enumerate body (S i) l'
  end.

(** ** [datetime.datetime(year, month, day, hour, minute, second, microsecond)] *)

Definition is_leap (y : Z) : bool :=
  ((y mod 4 =? 0) && negb (y mod 100 =? 0)) || (y mod 400 =? 0).

Definition days_in_month (y m : Z) : Z :=
  match m with
  | 2 => if is_leap y then 29 else 28
  | 4 | 6 | 9 | 11 => 30
  | _ => 31
  end.

Definition fits_c_int (z : Z) : bool := (- 2147483648 <=? z) && (z <=? 2147483647).

Definition between (lo z hi : Z) : bool := (lo <=? z) && (z <=? hi).

(** ** Values decoded by [json.loads]

    [F] is the type of Python floats.  A [JDict] lists the items of the
    dictionary in its iteration order; its keys are pairwise distinct. *)

#[warnings="-register-all"]
Inductive json (F : Type) : Type :=
| JNull
| JBool (b : bool)
| JInt (z : Z)
| JFloat (f : F)
| JStr (s : unicode)
| JList (l : list (json F))
| JDict (d : list (unicode * json F)).

Arguments JNull {F}.
Arguments JBool {F} b.
Arguments JInt {F} z.
Arguments JFloat {F} f.
Arguments JStr {F} s.
Arguments JList {F} l.
Arguments JDict {F} d.

(** The ten entries of the tuple returned by [email.utils.parsedate_tz];
    the last one, the offset from UTC in seconds, may be [None]. *)
Record time_tuple : Type := mk_time_tuple {
  tm_year : Z;
  tm_mon : Z;
  tm_mday : Z;
  tm_hour : Z;
  tm_min : Z;
  tm_sec : Z;
  tm_wday : Z;
  tm_yday : Z;
  tm_isdst : Z;
  tm_offset : option Z
}.

(** A [datetime.datetime] without time zone. *)
Record datetime : Type := mk_datetime {
  year : Z;
  month : Z;
  day : Z;
  hour : Z;
  minute : Z;
  second : Z;
  microsecond : Z
}.

(** ** The interpreter and its library

    What the script takes from Python and does not define itself: floats
    and how they print, the largest plain [int], the date parser of
    [email.utils], and the time zone the process runs in (which the script
    never asks for). *)

Class Python : Type := {
  pyfloat : Type;
  float_str : pyfloat -> string;
  float_repr : pyfloat -> string;
  maxint : Z;
  parsedate_tz : json pyfloat -> result (option time_tuple);
  local_utcoffset : Z
}.

Section Script.

Context {py : Python}.

Local Abbreviation value := (json pyfloat).

(** *** [repr] and [str] *)

Definition is_long (z : Z) : bool := (z <? - maxint - 1) || (maxint <? z).

Fixpoint py_repr (v : value) : string :=
  match v with
  | JNull => "None"
  | JBool true => "True"
  | JBool false => "False"
  | JInt z => dec z ++ (if is_long z then "L" else "")
  | JFloat f => float_repr f
  | JStr s => repr_unicode s
  | JList l => "[" ++ join ", " (map py_repr l) ++ "]"
  | JDict d =>
      "{" ++ join ", "
               (map (fun kv => match kv with
                               | (k, x) => repr_unicode k ++ ": " ++ py_repr x
                               end) d)
          ++ "}"
  end.

(** [str(v)].  On text it encodes with the ASCII codec. *)
Definition py_str (v : value) : result string :=
  match v with
  | JInt z => Ok (dec z)
  | JFloat f => Ok (float_str f)
  | JStr s =>
      if forallb (fun c => (c <? 128)%N) s
      then Ok (utf8 s)
      else Raise UnicodeEncodeError
  | _ => Ok (py_repr v)
  end.

(** *** [fix]

    [fix] is a reserved word of Rocq: the function is [fix_text] here. *)

(** [text.encode(...)]: only text has the method. *)
Definition encode (text : value) : result string :=
  match text with
  | JStr s => Ok (utf8 s)
  | _ => Raise AttributeError
  end.

Definition fix_text (text : value) : result string :=
  match rbind (encode text)
          (fun b => Ok (String DQUOTE (replace_char LF " " b ++ String DQUOTE "")))
  with
  | Raise AttributeError => py_str text
  | r => r
  end.

(** *** Subscripting

    The keys of a path are byte strings cut out of the field
    specification; the keys of a decoded dictionary are text.  Python 2
    finds a byte-string key equal to a text key when its bytes are ASCII and
    spell the same characters. *)

Fixpoint dict_find (k : unicode) (d : list (unicode * value)) : option value :=
  match d with
  | [] => None
  | (k', x) :: d' => if unicode_eqb k k' then Some x else dict_find k d'
  end.

Definition dict_get (key : string) (d : list (unicode * value)) : option value :=
  match decode_ascii key with
  | Some k => dict_find k d
  | None => None
  end.

(** [v[key]] for a byte-string [key] *)
Definition getitem_str (v : value) (key : string) : result value :=
  match v with
  | JDict d =>
      match dict_get key d with
      | Some x => Ok x
      | None => Raise KeyError
      end
  | _ => Raise TypeError
  end.

(** [v[i]] for an integer [i] *)
Definition getitem_int (v : value) (i : Z) : result value :=
  match v with
  | JList l => seq_index l i
  | JStr s => rbind (seq_index s i) (fun c => Ok (JStr [c]))
  | JDict _ => Raise KeyError
  | _ => Raise TypeError
  end.

(** The body of the loop over the keys:
<<
    try:
        value = value[key]
    except TypeError:
        value = value[int(key)]
>> *)
Definition subscript (v : value) (key : string) : result value :=
  match getitem_str v key with
  | Raise TypeError => rbind (py_int key) (getitem_int v)
  | r => r
  end.

(** [value == None] *)
Definition is_none (v : value) : bool :=
  match v with
  | JNull => true
  | _ => false
  end.

(** The loop [for key in field.split(",")], from the current [value] and
    [nodata] flag.  [continue] goes on with the next key; the value stays
    [None], so every later key sets the flag again. *)
Fixpoint walk (keys : list string) (v : value) (nodata : bool)
  : result (value * bool) :=
  match keys with
  | [] => Ok (v, nodata)
  | key :: keys' =>
      if is_none v then walk keys' v true
      else rbind (subscript v key) (fun v' => walk keys' v' nodata)
  end.

(** The cell of one field, without the separator that follows it: one
    blank when there is no data, [fix(value)] otherwise. *)
Definition placeholder : string := " ".

Definition field_cell (tweet : value) (field : string) : result string :=
  rbind (walk (split_on "," field) tweet false)
    (fun r => if snd r then Ok placeholder else fix_text (fst r)).

(** The body of the loop [for field in fields]. *)
Definition write_field (tweet : value) (field : string) : io unit :=
  r <- lift (walk (split_on "," field) tweet false) ;;
  if snd r then write " , "
  else (cell <- lift (fix_text (fst r)) ;; write (cell ++ ", ")).

(** *** The creation time *)

Definition datetime_new (y m d hh mm ss us : Z) : result datetime :=
  if negb (forallb fits_c_int [y; m; d; hh; mm; ss; us])
  then Raise OverflowError
  else if between 1 y 9999 && between 1 m 12
          && between 1 d (days_in_month y m)
          && between 0 hh 23 && between 0 mm 59 && between 0 ss 59
          && between 0 us 999999
  then Ok (mk_datetime y m d hh mm ss us)
  else Raise ValueError.

(** [dt.datetime( *[time_tpl[i] for i in range(7)])]: the first seven
    entries of the tuple; subscripting [None] is a [TypeError]. *)
Definition datetime_of_tuple (time_tpl : option time_tuple) : result datetime :=
  match time_tpl with
  | None => Raise TypeError
  | Some t =>
      datetime_new (tm_year t) (tm_mon t) (tm_mday t)
                   (tm_hour t) (tm_min t) (tm_sec t) (tm_wday t)
  end.

(** From a time string to the [datetime] the script builds. *)
Definition time_of_str (time_str : value) : result datetime :=
  rbind (parsedate_tz time_str) datetime_of_tuple.

Definition tweet_time (tweet : value) : result datetime :=
  rbind (getitem_str tweet "created_at") time_of_str.

(** *** One tweet, one row

    After the fields the script looks up [created_at], parses it and builds
    the [datetime], which it prints on the console.  Where the time columns
    were to be written it holds the note "HERE ADD Separat columns for month
    etc..." only, so nothing more goes to the file before the end of the
    line. *)
Definition process_tweet (fields : list string) (tweet : value) : io unit :=
  for_each (write_field tweet) fields ;;
  _ <- lift (tweet_time tweet) ;;
  write (String LF "").

(** *** The header *)

Definition time_header : string := "Year, Month, Day, Hour, Minute, Seconds".

Definition write_header (fields : list string) (no_time_columns : bool)
  : io unit :=
  for_each (fun field => write (replace_char "," "-" field ++ ", ")) fields ;;
  (if negb no_time_columns then write time_header else ret tt) ;;
  write (String LF "").

(** *** The files *)

(** An input file: its name and, for each line, what [json.loads] makes of
    it (a value, or the exception it raises). *)
Record infile : Type := mk_infile {
  fname : string;
  lines : list (result value)
}.

(** [fname[:-3]] *)
Definition drop_last3 (s : string) : string :=
  substring 0 (String.length s - 3) s.

(** Opening one input file.  [GzipFile] is not a name the script knows (it
    imports the module [gzip] only), so the branch for a compressed file
    stops with a [NameError]. *)
Definition open_input (f : infile) : io unit :=
  if String.eqb (drop_last3 (fname f)) ".gz"
  then lift (Raise NameError)
  else ret tt.

Definition process_line (fields : list string) (line : result value) : io unit :=
  tweet <- lift line ;;
  process_tweet fields tweet.

Definition process_file (fields : list string) (no_time_columns : bool)
    (i : nat) (f : infile) : io unit :=
  open_input f ;;
  (if Nat.eqb i 0 then write_header fields no_time_columns else ret tt) ;;
  for_each (process_line fields) (lines f).

(** *** The command line and the run

    [argparse] gives at least one input file. *)

Record args : Type := mk_args {
  files : list infile;
  outfile : string;
  field : option string;
  no_defaults : bool;
  no_time_columns : bool
}.

Definition default_fields : list string :=
  [ "id"; "user,id"; "user,screen_name"; "geo,coordinates,0";
    "geo,coordinates,1"; "place,full_name"; "created_at"; "text" ].

(** How a run ends: [sys.exit(code)] before the output file is opened, the
    end of the script, or an exception nobody catches; the last two with
    the text the output file holds. *)
Inductive outcome : Type :=
| Exit (code : Z)
| Finished (out : string)
| Aborted (out : string) (e : exn).

(** The fields the script extracts.  The option [--field] is parsed and
    never read. *)
Definition fields_of (a : args) : list string :=
  if no_defaults a then [] else default_fields.

Definition main (a : args) : outcome :=
  let fields := fields_of a in
  if Nat.eqb (List.length fields) 0 then Exit 1
  else match for_enumerate (process_file fields (no_time_columns a)) 0 (files a) ""
       with
       | (out, Ok _) => Finished out
       | (out, Raise e) => Aborted out e
       end.

(** *** Rows as lists of cells

    Every field is written by one [of.write(cell + ", ")].  The cells of a
    row are the cells of its fields in order; its text is each cell followed
    by the separator. *)

Fixpoint map_result {A B : Type} (f : A -> result B) (l : list A)
  : result (list B) :=
  match l with
  | [] => Ok []
  | x :: l' =>
      rbind (f x) (fun y => rbind (map_result f l') (fun ys => Ok (y :: ys)))
  end.

Definition row_cells (fields : list string) (tweet : value)
  : result (list string) :=
  map_result (field_cell tweet) fields.

Definition render (cells : list string) : string :=
  join "" (map (fun c => c ++ ", ") cells).

Definition time_columns : list string :=
  [ "Year"; "Month"; "Day"; "Hour"; "Minute"; "Seconds" ].

(** The names in the header line: one per field and, unless disabled, the
    six time columns. *)
Definition header_cells (fields : list string) (no_time_columns : bool)
  : list string :=
  map (replace_char "," "-") fields
  ++ (if no_time_columns then [] else time_columns).

(** *** Quoting as CSV asks for it

    Not what [fix] does: the text between the quotes with every double
    quote written twice.  Kept for comparison. *)
Fixpoint double_quotes (s : string) : string :=
  match s with
  | EmptyString => EmptyString
  | String c s' =>
      if Ascii.eqb c DQUOTE
      then String DQUOTE (String DQUOTE (double_quotes s'))
      else String c (double_quotes s')
  end.

Definition csv_quoted (s : string) : string :=
  String DQUOTE (double_quotes s ++ String DQUOTE "").

End Script.

(** ** A reference interpreter

    Floats are named by the text Python prints for them, plain integers
    are 64 bits wide, the process runs in UTC, and the date parser reads
    the layout of RFC 2822 with a numeric zone, as [email.utils] does:
    an optional day name, day, month name, year, [hh:mm] or [hh:mm:ss], and
    the zone.  It returns [None] on any other text and has no [split] method
    to call on a value that is not text. *)

(** [s.split()] *)
Fixpoint words_from (cur : string) (s : string) : list string :=
  match s with
  | EmptyString => if String.eqb cur "" then [] else [cur]
  | String c s' =>
      if is_space c
      then if String.eqb cur "" then words_from "" s'
           else cur :: words_from "" s'
      else words_from (cur ++ String c "") s'
  end.

Definition words (s : string) : list string := words_from "" s.

Definition lower_char (c : ascii) : ascii :=
  let n := N_of_ascii c in
  if ((65 <=? n) && (n <=? 90))%N then ascii_of_N (n + 32) else c.

Fixpoint lower (s : string) : string :=
  match s with
  | EmptyString => EmptyString
  | String c s' => String (lower_char c) (lower s')
  end.

Fixpoint last_char (s : string) : option ascii :=
  match s with
  | EmptyString => None
  | String c EmptyString => Some c
  | String _ s' => last_char s'
  end.

Fixpoint index_of (x : string) (l : list string) : option nat :=
  match l with
  | [] => None
  | y :: l' => if String.eqb x y then Some O else option_map S (index_of x l')
  end.

Definition monthnames : list string :=
  [ "jan"; "feb"; "mar"; "apr"; "may"; "jun"; "jul"; "aug"; "sep"; "oct";
    "nov"; "dec"; "january"; "february"; "march"; "april"; "may"; "june";
    "july"; "august"; "september"; "october"; "november"; "december" ].

Definition daynames : list string :=
  [ "mon"; "tue"; "wed"; "thu"; "fri"; "sat"; "sun" ].

Definition int_opt (s : string) : option Z :=
  match py_int s with
  | Ok z => Some z
  | Raise _ => None
  end.

(** [-0700] gives [-25200]; a zone that is not a number gives [None]. *)
Definition zone_seconds (tz : string) : option Z :=
  option_map
    (fun z => Z.sgn z * ((Z.abs z / 100) * 3600 + (Z.abs z mod 100) * 60))
    (int_opt tz).

Definition full_year (yy : Z) : Z :=
  if yy <? 100 then (if 68 <? yy then yy + 1900 else yy + 2000) else yy.

Definition parse_fields (dd mm yy tm tz : string) : option time_tuple :=
  match index_of (lower mm) monthnames, split_on ":" tm with
  | Some i, thh :: tmm :: more =>
      let tss := match more with
                 | [] => Some "0"
                 | [x] => Some x
                 | _ => None
                 end in
      match int_opt yy, int_opt dd, int_opt thh, int_opt tmm,
            option_map int_opt tss with
      | Some y, Some d, Some h, Some m, Some (Some sec) =>
          Some (mk_time_tuple (full_year y) (Z.of_nat (i mod 12) + 1) d h m sec
                  0 1 (-1) (zone_seconds tz))
      | _, _, _, _, _ => None
      end
  | _, _ => None
  end.

Definition parse_rfc2822 (s : string) : option time_tuple :=
  match words s with
  | [] => None
  | w :: rest =>
      let data :=
        if (match last_char w with
            | Some c => Ascii.eqb c ","
            | None => false
            end) || existsb (String.eqb (lower w)) daynames
        then rest else w :: rest in
      match data with
      | [dd; mm; yy; tm; tz] => parse_fields dd mm yy tm tz
      | _ => None
      end
  end.

Definition ascii_text (s : unicode) : option string :=
  if forallb (fun c => (c <? 128)%N) s then Some (utf8 s) else None.

Definition reference_parsedate_tz {F : Type} (data : json F)
  : result (option time_tuple) :=
  match data with
  | JStr s =>
      match ascii_text s with
      | Some b => Ok (parse_rfc2822 b)
      | None => Ok None
      end
  | _ => Raise AttributeError
  end.

#[export] Instance reference_python : Python := {|
  pyfloat := string;
  float_str := fun f => f;
  float_repr := fun f => f;
  maxint := 9223372036854775807;
  parsedate_tz := reference_parsedate_tz;
  local_utcoffset := 0
|}.

(** A tweet with every field the script asks for by default. *)
Definition sample_tweet : json string :=
  JDict
    [ (u "id", JInt 42);
      (u "user", JDict [ (u "id", JInt 7); (u "screen_name", JStr (u "nick")) ]);
      (u "geo", JDict [ (u "coordinates", JList [ JFloat "53.8"; JFloat "-1.55" ]) ]);
      (u "place", JDict [ (u "full_name", JStr (u "Leeds, England")) ]);
      (u "created_at", JStr (u "Wed, 02 Oct 2002 08:00:00 -0700"));
      (u "text", JStr (u "hello")) ].


(** Arguments of a run: the given tweets in one file, the default fields. *)
Definition run_on (tweets : list (json string)) (ntc : bool) : args :=
  mk_args [ mk_infile "tweets.json" (map Ok tweets) ] "tweets.csv" None false ntc.

(** A text between double quotes, as [fix] writes it. *)
Definition quoted (s : string) : string := String DQUOTE (s ++ String DQUOTE "").

(** Tweets without a creation time the script can use. *)
Definition lacks_created_at {py : Python} (tweet : json pyfloat) : Prop :=
  exists d, tweet = JDict d /\ dict_get "created_at" d = None.

Definition created_at_unparsed {py : Python} (tweet : json pyfloat) : Prop :=
  exists d time_str,
    tweet = JDict d /\ dict_get "created_at" d = Some time_str
    /\ parsedate_tz time_str = Ok None.

(** The tuple [t] with another offset from UTC. *)
Definition with_offset (t : time_tuple) (offset : option Z) : time_tuple :=
  mk_time_tuple (tm_year t) (tm_mon t) (tm_mday t) (tm_hour t) (tm_min t)
    (tm_sec t) (tm_wday t) (tm_yday t) (tm_isdst t) offset.

(** The date of the example in the documentation of [email.utils]. *)
Definition sample_date : unicode := u "Wed, 02 Oct 2002 08:00:00 -0700".

(** [sample_tweet] with the given value for a top-level key. *)
Definition sample_with (key : string) (x : json string) : json string :=
  match sample_tweet with
  | JDict d =>
      JDict (map (fun kv => if unicode_eqb (fst kv) (u key) then (fst kv, x) else kv) d)
  | v => v
  end.

(** ** Sample runs *)

(** Two files, the second with the name of a compressed file. *)
Definition two_files : args :=
  mk_args (py := reference_python)
    [ mk_infile "monday.json" [ Ok sample_tweet; Ok (sample_with "text" JNull) ];
      mk_infile "tuesday.json.gz" [ Ok sample_tweet ] ]
    "tweets.csv" None false true.

(** A file whose second tweet has a list for [user], and a file after it. *)
Definition broken_run : args :=
  mk_args (py := reference_python)
    [ mk_infile "monday.json"
        [ Ok sample_tweet; Ok (sample_with "user" (JList [ JInt 7 ]));
          Ok sample_tweet ];
      mk_infile "tuesday.json" [ Ok sample_tweet ] ]
    "tweets.csv" None false true.

(** A file with the name of the compressed-file branch, after a plain one. *)
Definition gz_run : args :=
  mk_args (py := reference_python)
    [ mk_infile "monday.json" [ Ok sample_tweet ];
      mk_infile ".gz.gz" [ Ok sample_tweet ] ]
    "tweets.csv" None false true.

(** The same two files in the other order. *)
Definition gz_first_run : args :=
  mk_args (py := reference_python)
    [ mk_infile ".gz.gz" [ Ok sample_tweet ];
      mk_infile "monday.json" [ Ok sample_tweet ] ]
    "tweets.csv" None false true.

(** A command line with [--no_defaults] and a field of its own. *)
Definition own_field_run : args :=
  mk_args (py := reference_python)
    [ mk_infile "tweets.json" [ Ok sample_tweet ] ] "tweets.csv"
    (Some "user,name") true false.

(** ** Runs, rows and values as wholes *)

Section Wholes.

Context {py : Python}.

Local Abbreviation value := (json pyfloat).

(** The same command line with the other choice for [--no_time_columns]. *)
Definition set_no_time_columns (a : args) (b : bool) : args :=
  mk_args (files a) (outfile a) (field a) (no_defaults a) b.

Definition outcome_of (r : string * result unit) : outcome :=
  match r with
  | (out, Ok _) => Finished out
  | (out, Raise e) => Aborted out e
  end.

(** The header line. *)
Definition header_text (fields : list string) (ntc : bool) : string :=
  render (map (replace_char "," "-") fields)
  ++ (if ntc then "" else time_header) ++ String LF "".

(** The line of a tweet whose fields and time are all found. *)
Definition row_text (fields : list string) (tweet : value) : result string :=
  rbind (row_cells fields tweet)
    (fun cells =>
       rbind (tweet_time tweet) (fun _ => Ok (render cells ++ String LF ""))).

Definition line_text (fields : list string) (line : result value)
  : result string :=
  rbind line (row_text fields).

Definition all_lines (fs : list infile) : list (result value) :=
  flat_map lines fs.

(** The file is opened with [open], not with the unknown [GzipFile]. *)
Definition opens (f : infile) : bool :=
  negb (String.eqb (drop_last3 (fname f)) ".gz").

(** What a computation appends to the file, whatever the file holds. *)
Definition appends {A : Type} (m : io A) : Prop :=
  forall out, m out = (out ++ fst (m ""), snd (m "")).

(** No float in the value prints with a line feed. *)
Fixpoint plain_floats (v : value) : bool :=
  match v with
  | JFloat f => negb (occurs LF (float_str f)) && negb (occurs LF (float_repr f))
  | JList l => forallb plain_floats l
  | JDict d => forallb (fun kv => match kv with (_, x) => plain_floats x end) d
  | _ => true
  end.

End Wholes.

(** How many times a character stands in a byte string. *)
Fixpoint count_char (a : ascii) (s : string) : nat :=
  match s with
  | EmptyString => O
  | String c s' => (if Ascii.eqb c a then 1 else 0) + count_char a s'
  end.

(** Numbers and truth values: what cannot be subscripted at all. *)
Definition is_scalar {F : Type} (v : json F) : bool :=
  match v with
  | JBool _ | JInt _ | JFloat _ => true
  | _ => false
  end.

(** The values of the lines that [json.loads] accepts. *)
Definition decoded {A : Type} (ls : list (result A)) : list A :=
  flat_map (fun line => match line with Ok x => [x] | Raise _ => [] end) ls.

(** The text with every line feed turned into a blank. *)
Definition blank_line_feeds (s : unicode) : unicode :=
  map (fun c => if (c =? 10)%N then 32%N else c) s.

(** Induction on values, through the lists and dictionaries inside them. *)
Section JsonInduction.

Context {F : Type} (P : json F -> Prop).

Hypothesis Hnull : P JNull.
Hypothesis Hbool : forall b, P (JBool b).
Hypothesis Hint : forall z, P (JInt z).
Hypothesis Hfloat : forall f, P (JFloat f).
Hypothesis Hstr : forall s, P (JStr s).
Hypothesis Hlist : forall l, Forall P l -> P (JList l).
Hypothesis Hdict : forall d, Forall (fun kv => P (snd kv)) d -> P (JDict d).

Fixpoint json_nested_ind (v : json F) : P v :=
  match v with
  | JNull => Hnull
  | JBool b => Hbool b
  | JInt z => Hint z
  | JFloat f => Hfloat f
  | JStr s => Hstr s
  | JList l =>
      Hlist l
        ((fix go (l : list (json F)) : Forall P l :=
            match l with
            | [] => Forall_nil _
            | x :: l' => Forall_cons _ (json_nested_ind x) (go l')
            end) l)
  | JDict d =>
      Hdict d
        ((fix go (d : list (unicode * json F))
            : Forall (fun kv => P (snd kv)) d :=
            match d with
            | [] => Forall_nil _
            | kv :: d' =>
                Forall_cons _
                  (match kv return P (snd kv) with
                   | (_, x) => json_nested_ind x
                   end)
                  (go d')
            end) d)
  end.

End JsonInduction.

(** * Properties *)

Section Properties.

Context {py : Python}.

Local Abbreviation value := (json pyfloat).

(** ** Loops that write *)

Lemma bind_ok {A B : Type} (m : io A) (k : A -> io B) out out' a :
  m out = (out', Ok a) -> bind m k out = k a out'.
Proof. intros E; unfold bind; now rewrite E. Qed.

Lemma bind_raise {A B : Type} (m : io A) (k : A -> io B) out out' e :
  m out = (out', Raise e) -> bind m k out = (out', Raise e).
Proof. intros E; unfold bind; now rewrite E. Qed.

Lemma bind_always_raises {A B : Type} (m : io A) (k : A -> io B) :
  always_raises m -> always_raises (bind m k).
Proof.
  intros H out. destruct (H out) as (out' & e & E).
  exists out', e. now apply bind_raise.
Qed.

Lemma bind_then_raises {A B : Type} (m : io A) (k : A -> io B) :
  (forall a, always_raises (k a)) -> always_raises (bind m k).
Proof.
  intros H out. unfold bind.
  destruct (m out) as [out' [a | e]].
  - apply H.
  - now exists out', e.
Qed.

(** A loop stops with an exception as soon as its body does on one item. *)
Lemma for_each_raises {A : Type} (body : A -> io unit) (l : list A) (x : A) :
  In x l -> always_raises (body x) -> always_raises (for_each body l).
Proof.
  induction l as [| y l IH]; simpl; [easy |].
  intros [-> | Hin] Hx.
  - now apply bind_always_raises.
  - apply bind_then_raises. intros _. now apply IH.
Qed.

Lemma for_enumerate_raises {A : Type} (body : nat -> A -> io unit)
    (l : list A) (x : A) :
  In x l -> (forall i, always_raises (body i x)) ->
  forall i, always_raises (for_enumerate body i l).
Proof.
  induction l as [| y l IH]; simpl; [easy |].
  intros [-> | Hin] Hx i.
  - now apply bind_always_raises.
  - apply bind_then_raises. intros _. now apply IH.
Qed.

(** ** Byte strings *)

Lemma append_nil_r (s : string) : s ++ "" = s.
Proof. induction s as [| c s IH]; simpl; [reflexivity | now rewrite IH]. Qed.

Lemma append_assoc (s t r : string) : (s ++ t) ++ r = s ++ t ++ r.
Proof. induction s as [| c s IH]; simpl; [reflexivity | now rewrite IH]. Qed.

(** ** Replacing a character *)

Lemma replace_char_removes (a b : ascii) (s : string) :
  a <> b -> occurs a (replace_char a b s) = false.
Proof.
  intros Hab. induction s as [| c s IH]; simpl; [reflexivity |].
  rewrite IH, orb_false_r.
  destruct (Ascii.eqb c a) eqn:E.
  - apply Ascii.eqb_neq. congruence.
  - exact E.
Qed.

Lemma replace_char_keeps (a b c : ascii) (s : string) :
  c <> a -> c <> b -> occurs c (replace_char a b s) = occurs c s.
Proof.
  intros Ha Hb. induction s as [| d s IH]; simpl; [reflexivity |].
  rewrite IH. f_equal.
  destruct (Ascii.eqb d a) eqn:E.
  - apply Ascii.eqb_eq in E. subst d.
    transitivity false; [| symmetry]; apply Ascii.eqb_neq; congruence.
  - reflexivity.
Qed.

Lemma occurs_app (c : ascii) (s t : string) :
  occurs c (s ++ t) = occurs c s || occurs c t.
Proof.
  induction s as [| d s IH]; simpl; [reflexivity |].
  now rewrite IH, orb_assoc.
Qed.

(** ** The formatter *)

Lemma fix_text_str (s : unicode) :
  fix_text (JStr s)
  = Ok (String DQUOTE (replace_char LF " " (utf8 s) ++ String DQUOTE "")).
Proof. reflexivity. Qed.

Lemma utf8_app (s t : unicode) : utf8 (s ++ t)%list = utf8 s ++ utf8 t.
Proof.
  induction s as [| c s IH]; simpl; [reflexivity |].
  now rewrite IH, append_assoc.
Qed.

Lemma replace_char_app (a b : ascii) (s t : string) :
  replace_char a b (s ++ t) = replace_char a b s ++ replace_char a b t.
Proof.
  induction s as [| c s IH]; simpl; [reflexivity | now rewrite IH].
Qed.

Lemma replace_char_length (a b : ascii) (s : string) :
  String.length (replace_char a b s) = String.length s.
Proof.
  induction s as [| c s IH]; simpl; [reflexivity | now rewrite IH].
Qed.

Lemma append_length (s t : string) :
  String.length (s ++ t) = (String.length s + String.length t)%nat.
Proof.
  induction s as [| c s IH]; simpl; [reflexivity | now rewrite IH].
Qed.

(** ** Joined strings *)

Lemma join_empty_cons (x : string) (xs : list string) :
  join "" (x :: xs) = x ++ join "" xs.
Proof.
  unfold join. destruct xs as [| y xs]; simpl.
  - now rewrite append_nil_r.
  - reflexivity.
Qed.

Lemma render_cons (c : string) (cells : list string) :
  render (c :: cells) = c ++ ", " ++ render cells.
Proof.
  unfold render. simpl map. rewrite join_empty_cons. apply append_assoc.
Qed.

(** ** The walk along the keys *)

Lemma walk_none (keys : list string) (nodata : bool) :
  walk keys (JNull : value) nodata
  = Ok (JNull, match keys with [] => nodata | _ :: _ => true end).
Proof.
  revert nodata. induction keys as [| key keys IH]; intros nodata; simpl.
  - reflexivity.
  - rewrite IH. now destruct keys.
Qed.

Lemma walk_app (pre post : list string) (v : value) (nodata : bool) :
  walk (pre ++ post) v nodata
  = rbind (walk pre v nodata) (fun r => walk post (fst r) (snd r)).
Proof.
  revert v nodata. induction pre as [| key pre IH]; intros v nodata; simpl.
  - reflexivity.
  - destruct (is_none v).
    + apply IH.
    + destruct (subscript v key) as [v' | e]; simpl; [apply IH | reflexivity].
Qed.

(** The flag, once set, stays set. *)
Lemma walk_nodata (keys : list string) (v v' : value) (nodata : bool) :
  walk keys v true = Ok (v', nodata) -> nodata = true.
Proof.
  revert v. induction keys as [| key keys IH]; intros v; simpl.
  - now intros [= _ <-].
  - destruct (is_none v); [apply IH |].
    destruct (subscript v key) as [x | e]; simpl; [apply IH | discriminate].
Qed.

(** ** Fields and rows *)

Lemma write_field_cell (tweet : value) (field : string) (out : string) :
  write_field tweet field out
  = match field_cell tweet field with
    | Ok cell => (out ++ cell ++ ", ", Ok tt)
    | Raise e => (out, Raise e)
    end.
Proof.
  unfold write_field, field_cell, bind, lift, write.
  destruct (walk (split_on "," field) tweet false) as [[v nodata] | e];
    simpl; [| reflexivity].
  destruct nodata; [reflexivity |].
  now destruct (fix_text v).
Qed.

Lemma write_field_raises (tweet : value) (field : string) (e : exn) :
  field_cell tweet field = Raise e -> always_raises (write_field tweet field).
Proof.
  intros E out. exists out, e. now rewrite write_field_cell, E.
Qed.


(** The field loop writes the cells of the row, each with its separator. *)
Lemma write_fields_row (fields : list string) (tweet : value)
    (cells : list string) (out : string) :
  row_cells fields tweet = Ok cells ->
  for_each (write_field tweet) fields out = (out ++ render cells, Ok tt).
Proof.
  unfold row_cells. revert cells out.
  induction fields as [| field fields IH]; intros cells out; simpl.
  - intros [= <-]. unfold ret, render, join. simpl. now rewrite append_nil_r.
  - destruct (field_cell tweet field) as [c | e] eqn:Ec; simpl; [| discriminate].
    destruct (map_result (field_cell tweet) fields) as [cs | e] eqn:Ecs; simpl;
      [| discriminate].
    intros [= <-]. unfold bind. rewrite write_field_cell, Ec.
    rewrite (IH cs _ eq_refl), render_cons.
    now rewrite !append_assoc.
Qed.

Lemma row_cells_raises (fields : list string) (tweet : value) (e : exn) :
  row_cells fields tweet = Raise e ->
  exists field e', In field fields /\ field_cell tweet field = Raise e'.
Proof.
  unfold row_cells. revert e.
  induction fields as [| field fields IH]; intros e; simpl; [discriminate |].
  destruct (field_cell tweet field) as [c | e1] eqn:Ec; simpl.
  - destruct (map_result (field_cell tweet) fields) as [cs | e2]; simpl;
      [discriminate |].
    intros _. destruct (IH e2 eq_refl) as (f & e' & Hin & E).
    exists f, e'. auto.
  - intros _. exists field, e1. auto.
Qed.

(** A tweet whose fields and time are all found gives one full line. *)
Lemma process_tweet_row (fields : list string) (tweet : value)
    (cells : list string) (time : datetime) (out : string) :
  row_cells fields tweet = Ok cells ->
  tweet_time tweet = Ok time ->
  process_tweet fields tweet out
  = (out ++ render cells ++ String LF "", Ok tt).
Proof.
  intros Hc Ht. unfold process_tweet, bind.
  rewrite (write_fields_row _ _ _ _ Hc).
  unfold lift, write. rewrite Ht. now rewrite append_assoc.
Qed.

(** Without its time, or without one of its fields, a tweet stops the run. *)
Lemma process_tweet_time_raises (fields : list string) (tweet : value)
    (e : exn) :
  tweet_time tweet = Raise e -> always_raises (process_tweet fields tweet).
Proof.
  intros Ht. unfold process_tweet.
  apply bind_then_raises. intros _.
  apply bind_always_raises. intros out. exists out, e.
  unfold lift. now rewrite Ht.
Qed.

Lemma process_tweet_field_raises (fields : list string) (tweet : value)
    (field : string) (e : exn) :
  In field fields -> field_cell tweet field = Raise e ->
  always_raises (process_tweet fields tweet).
Proof.
  intros Hin E. unfold process_tweet.
  apply bind_always_raises.
  apply for_each_raises with (x := field); [exact Hin |].
  now apply write_field_raises with (e := e).
Qed.

(** The header line holds the names of [header_cells]. *)
Lemma write_header_text (fields : list string) (ntc : bool) (out : string) :
  write_header fields ntc out
  = (out ++ render (map (replace_char "," "-") fields)
         ++ (if ntc then "" else join ", " time_columns)
         ++ String LF "", Ok tt).
Proof.
  unfold write_header, bind.
  assert (H : forall l o,
             for_each (fun field => write (replace_char "," "-" field ++ ", "))
               l o
             = (o ++ render (map (replace_char "," "-") l), Ok tt)).
  { induction l as [| f l IH]; intros o; simpl.
    - unfold ret, render, join. simpl. now rewrite append_nil_r.
    - unfold bind, write. rewrite IH, render_cons.
      now rewrite !append_assoc. }
  rewrite H. destruct ntc; simpl; unfold ret, write.
  - now rewrite !append_assoc.
  - now rewrite !append_assoc.
Qed.


(** ** The run *)

Lemma process_file_raises (fields : list string) (ntc : bool) (f : infile)
    (line : result value) :
  In line (lines f) -> always_raises (process_line fields line) ->
  forall i, always_raises (process_file fields ntc i f).
Proof.
  intros Hin Hline i. unfold process_file.
  apply bind_then_raises. intros _.
  apply bind_then_raises. intros _.
  now apply for_each_raises with (x := line).
Qed.

Lemma main_aborts (a : args) (f : infile) (line : result value) :
  no_defaults a = false -> In f (files a) -> In line (lines f) ->
  always_raises (process_line (fields_of a) line) ->
  exists out e, main a = Aborted out e.
Proof.
  intros Hnd Hf Hline Hraise. unfold main.
  replace (Nat.eqb (List.length (fields_of a)) 0) with false
    by (unfold fields_of; now rewrite Hnd).
  destruct (for_enumerate_raises
              (process_file (fields_of a) (no_time_columns a))
              (files a) f Hf
              (process_file_raises _ _ f line Hline Hraise) 0%nat "")
    as (out & e & E).
  rewrite E. now exists out, e.
Qed.

Lemma process_line_raises (fields : list string) (tweet : value) :
  always_raises (process_tweet fields tweet) ->
  always_raises (process_line fields (Ok tweet)).
Proof.
  intros H out. unfold process_line, bind, lift. apply H.
Qed.

(** ** The claims *)

(** C2 (as amended).  When the first key of a path is not in the tweet, a
    dictionary, the lookup raises [KeyError]: no cell is written for the
    field and every row that asks for the field stops there.  The blank
    placeholder is what a [None] gives when a key is still to be applied:
    here, when the tweet maps the first key to null and the path goes on. *)
Theorem absent_key_raises (d : list (unicode * value)) (field key : string)
    (rest : list string) :
  split_on "," field = key :: rest ->
  (dict_get key d = None ->
   field_cell (JDict d) field = Raise KeyError
   /\ (forall out, write_field (JDict d) field out = (out, Raise KeyError))
   /\ (forall fields, In field fields ->
       always_raises (process_tweet fields (JDict d))))
  /\ (dict_get key d = Some JNull -> rest <> [] ->
      field_cell (JDict d) field = Ok placeholder).
Proof.
  intros Hsplit. split.
  - intros Hkey.
    assert (E : field_cell (JDict d) field = Raise KeyError).
    { unfold field_cell. rewrite Hsplit. simpl.
      unfold subscript. simpl. now rewrite Hkey. }
    split; [exact E |]. split.
    + intros out. now rewrite write_field_cell, E.
    + intros fields Hin.
      now apply process_tweet_field_raises with (field := field) (e := KeyError).
  - intros Hkey Hrest.
    unfold field_cell. rewrite Hsplit. simpl.
    unfold subscript. simpl. rewrite Hkey. simpl.
    rewrite walk_none. destruct rest; [contradiction | reflexivity].
Qed.

(** C3 (as amended).  The time the script builds holds the calendar fields
    as the string writes them: the first seven entries of the parsed tuple.
    The offset from UTC, the tuple's last entry, is not read, and neither is
    the time zone of the process. *)
Theorem time_is_taken_as_written (time_str : value) (t : time_tuple)
    (time : datetime) :
  parsedate_tz time_str = Ok (Some t) ->
  time_of_str time_str = Ok time ->
  time = mk_datetime (tm_year t) (tm_mon t) (tm_mday t)
                     (tm_hour t) (tm_min t) (tm_sec t) (tm_wday t)
  /\ forall offset,
       datetime_of_tuple (Some (with_offset t offset)) = Ok time.
Proof.
  intros Hparse. unfold time_of_str. rewrite Hparse. simpl.
  unfold datetime_new.
  destruct (negb _); [discriminate |].
  destruct (_ && _); [| discriminate].
  intros [= <-]. split; reflexivity.
Qed.

(** C4 (as amended).  When a key meets a value that cannot be subscripted
    with a string, the lookup is tried again with [int(key)].  If that gives
    an element, the walk goes on from it.  If it raises (the key is no
    integer, the index is out of range, the value is no sequence), nothing
    catches the exception: the field has no cell and the row stops. *)
Theorem mismatch_is_retried_as_index (fields : list string) (tweet : value)
    (field : string) (pre : list string) (key : string) (post : list string)
    (v : value) :
  In field fields ->
  split_on "," field = (pre ++ key :: post)%list ->
  walk pre tweet false = Ok (v, false) ->
  is_none v = false ->
  getitem_str v key = Raise TypeError ->
  match rbind (py_int key) (getitem_int v) with
  | Ok x => walk (split_on "," field) tweet false = walk post x false
  | Raise e =>
      field_cell tweet field = Raise e
      /\ always_raises (process_tweet fields tweet)
  end.
Proof.
  intros Hin Hsplit Hpre Hnone Hstr.
  assert (Hwalk : walk (split_on "," field) tweet false
                  = rbind (rbind (py_int key) (getitem_int v))
                      (fun x => walk post x false)).
  { rewrite Hsplit, walk_app, Hpre. simpl. rewrite Hnone.
    unfold subscript. now rewrite Hstr. }
  destruct (rbind (py_int key) (getitem_int v)) as [x | e].
  - exact Hwalk.
  - assert (E : field_cell tweet field = Raise e).
    { unfold field_cell. now rewrite Hwalk. }
    split; [exact E |].
    now apply process_tweet_field_raises with (field := field) (e := e).
Qed.

(** C5 (as amended).  A text comes out as its UTF-8 bytes, line feeds
    replaced by blanks, between two double quotes.  A double quote inside
    the text is copied as it is, once, wherever it stands. *)
Theorem fix_text_copies_quotes (s t : unicode) :
  fix_text (JStr s) = Ok (quoted (replace_char LF " " (utf8 s)))
  /\ fix_text (JStr (s ++ 34%N :: t)%list)
     = Ok (quoted (replace_char LF " " (utf8 s)
                   ++ String DQUOTE (replace_char LF " " (utf8 t)))).
Proof.
  split; [reflexivity |].
  rewrite fix_text_str, utf8_app, replace_char_app. reflexivity.
Qed.

(** C7 (as amended).  In a formatted text every line feed has become one
    blank: the cell is as long as the text with its two quotes and holds no
    line feed.  A carriage return is in the cell exactly when it is in the
    text. *)
Theorem fix_text_replaces_line_feeds (s : unicode) :
  exists cell,
    fix_text (JStr s) = Ok cell
    /\ cell = quoted (replace_char LF " " (utf8 s))
    /\ String.length cell = (String.length (utf8 s) + 2)%nat
    /\ occurs LF cell = false
    /\ occurs CR cell = occurs CR (utf8 s).
Proof.
  eexists. split; [apply fix_text_str |]. split; [reflexivity |].
  unfold quoted. simpl.
  rewrite append_length, replace_char_length, !occurs_app. simpl.
  rewrite replace_char_removes by discriminate.
  rewrite replace_char_keeps by discriminate.
  repeat split.
  - lia.
  - now rewrite orb_false_r.
Qed.

(** C6 (as amended).  A null met while a key is still to be applied gives
    the placeholder, one blank without quotes, whatever keys remain.  A null
    that is the value at the end of the path reaches [fix], which gives the
    text [None], without quotes.  Formatting the placeholder again does not
    give it back: as a text it comes out between double quotes. *)
Theorem null_cells (tweet : value) (field : string) (pre post : list string) :
  split_on "," field = (pre ++ post)%list ->
  walk pre tweet false = Ok (JNull, false) ->
  field_cell tweet field
  = Ok (match post with [] => "None" | _ :: _ => placeholder end)
  /\ fix_text (JStr (u placeholder)) = Ok (quoted placeholder)
  /\ quoted placeholder <> placeholder.
Proof.
  intros Hsplit Hpre. split; [| split; [reflexivity | discriminate]].
  unfold field_cell. rewrite Hsplit, walk_app, Hpre. simpl.
  rewrite walk_none. now destruct post.
Qed.

(** C8.  In the record [{"a": {"b": [10, 20]}}] the path [a,b,1] leads to
    20: [a] and [b] are found as keys, and [1], which the list refuses as a
    string, as an index. *)
Theorem nested_path_example :
  let record : value :=
    JDict [ (u "a", JDict [ (u "b", JList [ JInt 10; JInt 20 ]) ]) ] in
  walk (split_on "," "a,b,1") record false = Ok (JInt 20, false)
  /\ getitem_str (JList [ JInt 10; JInt 20 ] : value) "1" = Raise TypeError
  /\ subscript (JList [ JInt 10; JInt 20 ] : value) "1" = Ok (JInt 20)
  /\ field_cell record "a,b,1" = Ok "20".
Proof. repeat split. Qed.

(** C9.  A value that is not a text has no [encode] method: [fix] returns
    [str] of it, as it is, without the quotes and the replacement of line
    feeds that a text gets. *)
Theorem fix_text_not_text (v : value) :
  encode v = Raise AttributeError ->
  fix_text v = py_str v
  /\ exists cell, fix_text v = Ok cell
     /\ cell = match v with
               | JInt z => dec z
               | JFloat f => float_str f
               | _ => py_repr v
               end.
Proof.
  intros Henc. unfold fix_text. rewrite Henc. simpl.
  split; [reflexivity |].
  destruct v; try discriminate Henc; simpl; eexists; split; reflexivity.
Qed.

(** C10.  The creation time is looked up and parsed for every tweet,
    whether or not the time columns are asked for.  A tweet without the key
    [created_at], or with one the parser gives [None] for, raises an
    exception that nothing catches: the row is not finished and the run
    stops. *)
Theorem created_at_is_required (a : args) (f : infile) (tweet : value) :
  no_defaults a = false ->
  In f (files a) ->
  In (Ok tweet) (lines f) ->
  lacks_created_at tweet \/ created_at_unparsed tweet ->
  (exists e, tweet_time tweet = Raise e)
  /\ (forall fields, always_raises (process_tweet fields tweet))
  /\ exists out e, main a = Aborted out e.
Proof.
  intros Hnd Hf Hline Hbad.
  assert (Ht : exists e, tweet_time tweet = Raise e).
  { destruct Hbad as [(d & -> & Hkey) | (d & time_str & -> & Hkey & Hparse)];
      unfold tweet_time; simpl; rewrite Hkey; simpl.
    - now exists KeyError.
    - unfold time_of_str. rewrite Hparse. simpl. now exists TypeError. }
  destruct Ht as (e & Ht).
  split; [now exists e |]. split.
  - intros fields. now apply process_tweet_time_raises with (e := e).
  - apply main_aborts with (f := f) (line := Ok tweet); try assumption.
    apply process_line_raises.
    now apply process_tweet_time_raises with (e := e).
Qed.

End Properties.

(** ** The claims on given tweets, run by the reference interpreter *)

(** C1.  With the time columns on, the header of the sample run names 14
    columns, the eight fields and the six time columns; the row of the
    sample tweet holds the eight cells of the fields and no time cell. *)
Theorem rows_lack_time_cells :
  let cells :=
    [ "42"; "7"; quoted "nick"; "53.8"; "-1.55"; quoted "Leeds, England";
      quoted "Wed, 02 Oct 2002 08:00:00 -0700"; quoted "hello" ] in
  row_cells default_fields sample_tweet = Ok cells
  /\ main (run_on [ sample_tweet ] false)
     = Finished (render (map (replace_char "," "-") default_fields)
                 ++ time_header ++ String LF ""
                 ++ render cells ++ String LF "")
  /\ List.length (header_cells default_fields false) = 14%nat
  /\ List.length cells = 8%nat.
Proof. repeat split. Qed.

(** C2, counterexample.  The tweet has no [id]: the lookup raises
    [KeyError] instead of giving the placeholder, and the run stops after
    the header. *)
Lemma absent_key_is_not_placeholder :
  let tweet : json string := JDict [ (u "text", JStr (u "hi")) ] in
  walk (split_on "," "id") tweet false = Raise KeyError
  /\ field_cell tweet "id" <> Ok placeholder
  /\ main (run_on [ tweet ] true)
     = Aborted (render (map (replace_char "," "-") default_fields)
                ++ String LF "") KeyError.
Proof. repeat split. discriminate. Qed.

(** C3, counterexample.  In a process that runs in UTC the sample date,
    written with the offset -0700, gives the hour 8. *)
Lemma sample_hour_is_eight :
  local_utcoffset = 0
  /\ time_of_str (JStr sample_date : json string)
     = Ok (mk_datetime 2002 10 2 8 0 0 0)
  /\ ~ (exists time,
          time_of_str (JStr sample_date : json string) = Ok time
          /\ hour time <> 8).
Proof.
  repeat split.
  intros (time & E & H). apply H.
  now injection E as <-.
Qed.

(** C4, counterexample.  The sample tweet with a list for [user]: the key
    [id] does not fit the list, [int] refuses it, and the run stops in the
    row after its first cell. *)
Lemma mismatch_stops_the_run :
  let tweet := sample_with "user" (JList [ JInt 7 ]) in
  field_cell tweet "user,id" = Raise ValueError
  /\ field_cell tweet "user,id" <> Ok placeholder
  /\ main (run_on [ tweet ] true)
     = Aborted (render (map (replace_char "," "-") default_fields)
                ++ String LF "" ++ "42, ") ValueError.
Proof. repeat split. discriminate. Qed.

(** C5, counterexample.  A text with double quotes inside comes out with
    the two quotes around it and the inner ones single, not doubled as CSV
    quoting has them. *)
Lemma inner_quote_is_not_doubled :
  let text := (u "say " ++ 34%N :: u "hi" ++ [ 34%N ])%list in
  fix_text (JStr text : json string)
  = Ok (quoted ("say " ++ String DQUOTE ("hi" ++ String DQUOTE "")))
  /\ csv_quoted (utf8 text)
     = quoted ("say " ++ String DQUOTE (String DQUOTE
                 ("hi" ++ String DQUOTE (String DQUOTE ""))))
  /\ fix_text (JStr text : json string) <> Ok (csv_quoted (utf8 text)).
Proof.
  split; [reflexivity |]. split; [reflexivity |]. discriminate.
Qed.

(** C6, counterexample.  A null [text] gives the cell [None], not the
    placeholder that a null [place] gives to [place,full_name]; and the
    placeholder formatted as a text comes out between quotes. *)
Lemma null_value_is_not_placeholder :
  field_cell (sample_with "text" JNull) "text" = Ok "None"
  /\ field_cell (sample_with "place" JNull) "place,full_name" = Ok placeholder
  /\ "None" <> placeholder
  /\ fix_text (JStr (u placeholder) : json string) <> Ok placeholder.
Proof. repeat split; discriminate. Qed.

(** C7, counterexample.  A text with a carriage return and a line feed:
    the line feed becomes a blank, the carriage return stays in the cell. *)
Lemma carriage_return_is_kept :
  let text := (u "a" ++ 13%N :: 10%N :: u "b")%list in
  fix_text (JStr text : json string)
  = Ok (quoted ("a" ++ String CR (String " " "b")))
  /\ exists cell,
       fix_text (JStr text : json string) = Ok cell
       /\ occurs CR cell = true.
Proof.
  split; [reflexivity |].
  eexists. split; reflexivity.
Qed.

(** ** The general statements at given tweets *)

(** C2, witness: a tweet without [id], and a tweet with a null [place]. *)
Lemma absent_key_raises_witness :
  let d : list (unicode * json string) := [ (u "text", JStr (u "hi")) ] in
  let d' : list (unicode * json string) := [ (u "place", JNull) ] in
  (split_on "," "id" = [ "id" ] /\ dict_get "id" d = None
   /\ field_cell (JDict d) "id" = Raise KeyError
   /\ always_raises (process_tweet default_fields (JDict d)))
  /\ (split_on "," "place,full_name" = [ "place"; "full_name" ]
      /\ dict_get "place" d' = Some JNull
      /\ field_cell (JDict d') "place,full_name" = Ok placeholder).
Proof.
  intros d d'. split.
  - destruct (proj1 (absent_key_raises (py := reference_python) d "id" "id" []
                       eq_refl) eq_refl)
      as (Hcell & _ & Hrow).
    split; [reflexivity |]. split; [reflexivity |]. split; [exact Hcell |].
    apply Hrow. simpl. auto.
  - split; [reflexivity |]. split; [reflexivity |].
    apply (proj2 (absent_key_raises (py := reference_python) d'
                    "place,full_name" "place" [ "full_name" ] eq_refl)).
    + reflexivity.
    + discriminate.
Defined.

(** C3, witness: the sample date. *)
Lemma time_is_taken_as_written_witness :
  let t := mk_time_tuple 2002 10 2 8 0 0 0 1 (-1) (Some (-25200)) in
  let time := mk_datetime 2002 10 2 8 0 0 0 in
  parsedate_tz (JStr sample_date) = Ok (Some t)
  /\ time_of_str (JStr sample_date : json string) = Ok time
  /\ hour time = tm_hour t
  /\ datetime_of_tuple (Some (with_offset t (Some 0))) = Ok time.
Proof.
  intros t time.
  destruct (time_is_taken_as_written (py := reference_python)
              (JStr sample_date) t time eq_refl eq_refl)
    as (Htime & Hoffset).
  split; [reflexivity |]. split; [reflexivity |]. split.
  - now rewrite Htime.
  - apply Hoffset.
Defined.

(** C4, witness: the list of coordinates met by the keys [1] and [lon]. *)
Lemma mismatch_is_retried_as_index_witness :
  let coordinates : json string := JList [ JInt 53; JInt (-1) ] in
  let tweet : json string :=
    JDict [ (u "geo", JDict [ (u "coordinates", coordinates) ]) ] in
  (walk [ "geo"; "coordinates" ] tweet false = Ok (coordinates, false)
   /\ getitem_str coordinates "1" = Raise TypeError
   /\ walk (split_on "," "geo,coordinates,1") tweet false
      = Ok (JInt (-1), false))
  /\ (getitem_str coordinates "lon" = Raise TypeError
      /\ field_cell tweet "geo,coordinates,lon" = Raise ValueError
      /\ always_raises (process_tweet [ "geo,coordinates,lon" ] tweet)).
Proof.
  intros coordinates tweet. split.
  - split; [reflexivity |]. split; [reflexivity |].
    exact (mismatch_is_retried_as_index (py := reference_python)
             [ "geo,coordinates,1" ] tweet
             "geo,coordinates,1" [ "geo"; "coordinates" ] "1" [] coordinates
             (or_introl eq_refl) eq_refl eq_refl eq_refl eq_refl).
  - split; [reflexivity |].
    exact (mismatch_is_retried_as_index (py := reference_python)
             [ "geo,coordinates,lon" ] tweet
             "geo,coordinates,lon" [ "geo"; "coordinates" ] "lon" [] coordinates
             (or_introl eq_refl) eq_refl eq_refl eq_refl eq_refl).
Defined.

(** C6, witness: a null [text], and a null [place] before [full_name]. *)
Lemma null_cells_witness :
  (split_on "," "text" = ([ "text" ] ++ [])%list
   /\ walk [ "text" ] (sample_with "text" JNull) false = Ok (JNull, false)
   /\ field_cell (sample_with "text" JNull) "text" = Ok "None")
  /\ (split_on "," "place,full_name" = ([ "place" ] ++ [ "full_name" ])%list
      /\ walk [ "place" ] (sample_with "place" JNull) false = Ok (JNull, false)
      /\ field_cell (sample_with "place" JNull) "place,full_name"
         = Ok placeholder).
Proof.
  split.
  - split; [reflexivity |]. split; [reflexivity |].
    exact (proj1 (null_cells (py := reference_python)
                    (sample_with "text" JNull) "text"
                    [ "text" ] [] eq_refl eq_refl)).
  - split; [reflexivity |]. split; [reflexivity |].
    exact (proj1 (null_cells (py := reference_python)
                    (sample_with "place" JNull) "place,full_name"
                    [ "place" ] [ "full_name" ] eq_refl eq_refl)).
Defined.

(** C9, witness: a list holding a text with a line feed, a float and a
    null. *)
Lemma fix_text_not_text_witness :
  let v : json string :=
    JList [ JStr (u "a" ++ 10%N :: u "b")%list; JFloat "53.8"; JNull ] in
  encode v = Raise AttributeError
  /\ fix_text v = py_str v
  /\ fix_text v = Ok "[u'a\nb', 53.8, None]".
Proof.
  intros v.
  destruct (fix_text_not_text (py := reference_python) v eq_refl)
    as (Hstr & cell & Hcell & Htext).
  split; [reflexivity |]. split; [exact Hstr |].
  rewrite Hcell, Htext. reflexivity.
Defined.

(** C10, witness: a run without time columns on a tweet whose
    [created_at] is no date. *)
Lemma created_at_is_required_witness :
  let tweet := sample_with "created_at" (JStr (u "yesterday")) in
  let a := run_on [ tweet ] true in
  (no_time_columns a = true /\ created_at_unparsed tweet)
  /\ (exists e, tweet_time tweet = Raise e)
  /\ (exists out e, main a = Aborted out e).
Proof.
  intros tweet a.
  assert (H : created_at_unparsed tweet).
  { eexists _, (JStr (u "yesterday")).
    split; [reflexivity |]. split; reflexivity. }
  destruct (created_at_is_required (py := reference_python) a
              (mk_infile (py := reference_python) "tweets.json" [ Ok tweet ])
              tweet eq_refl (or_introl eq_refl) (or_introl eq_refl)
              (or_intror H))
    as (Htime & _ & Hmain).
  split; [split; [reflexivity | exact H] |].
  split; assumption.
Defined.

(** * Further properties of the script *)

Section Further.

Context {py : Python}.

Local Abbreviation value := (json pyfloat).

(** ** The script only appends *)

Lemma appends_ret {A : Type} (a : A) : appends (ret a).
Proof. intros out. unfold ret. simpl. now rewrite append_nil_r. Qed.

Lemma appends_lift {A : Type} (r : result A) : appends (lift r).
Proof. intros out. unfold lift. simpl. now rewrite append_nil_r. Qed.

Lemma appends_write (s : string) : appends (write s).
Proof. intros out. reflexivity. Qed.

Lemma appends_bind {A B : Type} (m : io A) (k : A -> io B) :
  appends m -> (forall a, appends (k a)) -> appends (bind m k).
Proof.
  intros Hm Hk out. unfold bind.
  rewrite (Hm out). destruct (m "") as [w [a | e]]; simpl.
  - rewrite (Hk a (out ++ w)), (Hk a w). simpl.
    now rewrite append_assoc.
  - reflexivity.
Qed.

Lemma appends_for_each {A : Type} (body : A -> io unit) (l : list A) :
  (forall x, appends (body x)) -> appends (for_each body l).
Proof.
  intros Hbody. induction l as [| x l IH]; simpl.
  - apply appends_ret.
  - apply appends_bind; [apply Hbody | intros _; exact IH].
Qed.

Lemma appends_for_enumerate {A : Type} (body : nat -> A -> io unit)
    (l : list A) :
  (forall i x, appends (body i x)) ->
  forall i, appends (for_enumerate body i l).
Proof.
  intros Hbody. induction l as [| x l IH]; intros i; simpl.
  - apply appends_ret.
  - apply appends_bind; [apply Hbody | intros _; apply IH].
Qed.

Lemma appends_write_field (tweet : value) (field : string) :
  appends (write_field tweet field).
Proof.
  unfold write_field. apply appends_bind; [apply appends_lift |].
  intros [v nodata]. destruct nodata; simpl.
  - apply appends_write.
  - apply appends_bind; [apply appends_lift | intros c; apply appends_write].
Qed.

Lemma appends_process_tweet (fields : list string) (tweet : value) :
  appends (process_tweet fields tweet).
Proof.
  unfold process_tweet.
  apply appends_bind;
    [apply appends_for_each; intros f; apply appends_write_field |].
  intros _. apply appends_bind; [apply appends_lift |].
  intros _. apply appends_write.
Qed.

Lemma appends_process_line (fields : list string) (line : result value) :
  appends (process_line fields line).
Proof.
  unfold process_line. apply appends_bind; [apply appends_lift |].
  intros tweet. apply appends_process_tweet.
Qed.

Lemma appends_write_header (fields : list string) (ntc : bool) :
  appends (write_header fields ntc).
Proof.
  unfold write_header.
  apply appends_bind;
    [apply appends_for_each; intros f; apply appends_write |].
  intros _. apply appends_bind.
  - destruct ntc; simpl; [apply appends_ret | apply appends_write].
  - intros _. apply appends_write.
Qed.

Lemma appends_process_file (fields : list string) (ntc : bool) (i : nat)
    (f : infile) :
  appends (process_file fields ntc i f).
Proof.
  unfold process_file. apply appends_bind.
  - unfold open_input. destruct (String.eqb _ _);
      [apply appends_lift | apply appends_ret].
  - intros _. apply appends_bind.
    + destruct (Nat.eqb i 0); [apply appends_write_header | apply appends_ret].
    + intros _. apply appends_for_each. intros line.
      apply appends_process_line.
Qed.

(** ** Rows that stop before their end *)

Lemma row_cells_app (pre post : list string) (tweet : value) :
  row_cells (pre ++ post) tweet
  = rbind (row_cells pre tweet)
      (fun a => rbind (row_cells post tweet) (fun b => Ok (a ++ b)%list)).
Proof.
  unfold row_cells. induction pre as [| f pre IH]; simpl.
  - now destruct (map_result (field_cell tweet) post).
  - destruct (field_cell tweet f) as [c | e]; simpl; [| reflexivity].
    rewrite IH.
    destruct (map_result (field_cell tweet) pre) as [a | e]; simpl;
      [| reflexivity].
    now destruct (map_result (field_cell tweet) post).
Qed.

Lemma for_each_app {A : Type} (body : A -> io unit) (l1 l2 : list A)
    (out : string) :
  for_each body (l1 ++ l2) out
  = bind (for_each body l1) (fun _ => for_each body l2) out.
Proof.
  revert out. induction l1 as [| x l1 IH]; intros out; simpl.
  - reflexivity.
  - unfold bind. destruct (body x out) as [out' [[] | e]].
    + rewrite IH. reflexivity.
    + reflexivity.
Qed.

(** X4.  When the lookup of a field raises, the cells of the fields before
    it are in the file, each with its separator, and nothing else of the
    row: no cell for the field or for those after it, no end of line. *)
Theorem failing_field_leaves_cells_before (tweet : value)
    (pre : list string) (field : string) (post : list string)
    (cells : list string) (e : exn) (out : string) :
  row_cells pre tweet = Ok cells ->
  field_cell tweet field = Raise e ->
  process_tweet (pre ++ field :: post) tweet out
  = (out ++ render cells, Raise e).
Proof.
  intros Hpre Hfield. unfold process_tweet, bind.
  rewrite for_each_app. unfold bind.
  rewrite (write_fields_row _ _ _ _ Hpre). simpl. unfold bind.
  now rewrite write_field_cell, Hfield.
Qed.

(** X5.  When all the fields of a tweet are found and its creation time
    is not, the whole row is in the file without its end of line. *)
Theorem failing_time_leaves_open_row (fields : list string) (tweet : value)
    (cells : list string) (e : exn) (out : string) :
  row_cells fields tweet = Ok cells ->
  tweet_time tweet = Raise e ->
  process_tweet fields tweet out = (out ++ render cells, Raise e).
Proof.
  intros Hcells Htime. unfold process_tweet, bind.
  rewrite (write_fields_row _ _ _ _ Hcells).
  unfold lift. now rewrite Htime.
Qed.

(** X6.  A line that holds the JSON value [null]: every field gets the
    placeholder, then the lookup of [created_at] in [None] raises a
    [TypeError], so the row stays without its end of line. *)
Theorem null_tweet_row (fields : list string) (out : string) :
  row_cells fields (JNull : value) = Ok (map (fun _ => placeholder) fields)
  /\ process_tweet fields (JNull : value) out
     = (out ++ render (map (fun _ => placeholder) fields), Raise TypeError).
Proof.
  assert (H : row_cells fields (JNull : value)
              = Ok (map (fun _ => placeholder) fields)).
  { unfold row_cells. induction fields as [| f fields IH]; simpl.
    - reflexivity.
    - rewrite IH. unfold field_cell. rewrite walk_none.
      destruct (split_on "," f) eqn:E; [| reflexivity].
      destruct f as [| c f]; simpl in E; [discriminate |].
      destruct (Ascii.eqb c ","); [discriminate |].
      destruct (split_on "," f); discriminate. }
  split; [exact H |].
  unfold process_tweet, bind.
  now rewrite (write_fields_row _ _ _ _ H).
Qed.

(** X7.  The placeholder is written only for a value that is [None]: when
    the walk ends with the flag set, the value it ends on is [None]. *)
Theorem nodata_means_none (keys : list string) (v x : value) :
  walk keys v false = Ok (x, true) -> x = JNull.
Proof.
  revert v. induction keys as [| key keys IH]; intros v; simpl.
  - discriminate.
  - destruct v; simpl;
      try (destruct (subscript _ key) as [v' | e]; simpl;
           [apply IH | discriminate]).
    rewrite walk_none. now intros [= <-].
Qed.

(** ** Header and rows *)


Lemma split_on_join (a b : ascii) (s : string) :
  join (String b "") (split_on a s) = replace_char a b s.
Proof.
  induction s as [| c s IH]; simpl; [reflexivity |].
  unfold join in *. destruct (Ascii.eqb c a).
  - simpl. destruct (split_on a s) eqn:E; simpl in *.
    + destruct s as [| d s]; simpl in E; [discriminate |].
      destruct (Ascii.eqb d a); [discriminate |].
      destruct (split_on a s); discriminate.
    + now rewrite <- IH.
  - destruct (split_on a s) as [| p ps] eqn:E; simpl in *.
    + now rewrite <- IH.
    + destruct ps; simpl in *; now rewrite <- IH.
Qed.

(** X9.  The name of a field in the header is its keys joined by dashes,
    and no name in the header holds a comma (the note on the line that
    writes the names: no commas in fieldnames). *)
Theorem header_names_have_no_comma (fields : list string) (ntc : bool) :
  (forall field, In field fields ->
     In (join "-" (split_on "," field)) (header_cells fields ntc))
  /\ (forall name, In name (header_cells fields ntc) -> occurs "," name = false).
Proof.
  split.
  - intros f Hin. unfold header_cells. apply in_or_app. left.
    rewrite split_on_join. now apply in_map.
  - intros name Hin. unfold header_cells in Hin.
    apply in_app_or in Hin. destruct Hin as [Hin | Hin].
    + apply in_map_iff in Hin. destruct Hin as (f & <- & _).
      apply replace_char_removes. discriminate.
    + destruct ntc; simpl in Hin; [contradiction |].
      repeat (destruct Hin as [<- | Hin]; [reflexivity |]). contradiction.
Qed.

(** ** The command line *)

(** X1.  The script leaves with status 1, before it opens any file,
    exactly when [--no_defaults] is given: the field list is then empty
    whatever [--field] holds.  Without the option a run never ends that
    way. *)
Theorem no_defaults_exits (a : args) :
  (no_defaults a = true -> main a = Exit 1)
  /\ (no_defaults a = false -> forall code, main a <> Exit code).
Proof.
  unfold main, fields_of. split; intros H; rewrite H.
  - reflexivity.
  - intros code. simpl.
    destruct (for_enumerate _ 0 (files a) "") as [out [[] | e]]; discriminate.
Qed.

(** ** Input files *)

Lemma drop_last3_gz (s : string) :
  drop_last3 s = ".gz"
  <-> exists c1 c2 c3, s = ".gz" ++ String c1 (String c2 (String c3 "")).
Proof.
  unfold drop_last3. split.
  - intros H.
    destruct s as [| a1 [| a2 [| a3 [| a4 [| a5 [| a6 [| a7 s]]]]]]];
      simpl in H; try discriminate.
    injection H as -> -> ->. now exists a4, a5, a6.
  - intros (c1 & c2 & c3 & ->). reflexivity.
Qed.

(** X10.  The branch for compressed files is taken, and stops the run with
    a [NameError], exactly for a file name made of [.gz] and three more
    characters.  Every other file, one whose name ends in [.gz] too, is
    opened as plain text. *)
Theorem gzip_branch_names (f : infile) (out : string) :
  (open_input f out = (out, Raise NameError)
   <-> exists c1 c2 c3,
         fname f = ".gz" ++ String c1 (String c2 (String c3 "")))
  /\ (opens f = true <-> open_input f out = (out, Ok tt)).
Proof.
  unfold open_input, opens, lift, ret. split.
  - rewrite <- drop_last3_gz.
    destruct (String.eqb (drop_last3 (fname f)) ".gz") eqn:E.
    + apply String.eqb_eq in E. now split.
    + apply String.eqb_neq in E. split; [discriminate | contradiction].
  - destruct (String.eqb (drop_last3 (fname f)) ".gz"); simpl; split;
      congruence.
Qed.

(** ** Whole runs *)

Lemma join_empty_app (a b : list string) :
  join "" (a ++ b) = join "" a ++ join "" b.
Proof.
  induction a as [| x a IH].
  - reflexivity.
  - change ((x :: a) ++ b)%list with (x :: (a ++ b))%list.
    now rewrite !join_empty_cons, IH, append_assoc.
Qed.

Lemma map_result_app {A B : Type} (f : A -> result B) (l1 l2 : list A) :
  map_result f (l1 ++ l2)
  = rbind (map_result f l1)
      (fun a => rbind (map_result f l2) (fun b => Ok (a ++ b)%list)).
Proof.
  induction l1 as [| x l1 IH]; simpl.
  - now destruct (map_result f l2).
  - destruct (f x) as [y | e]; simpl; [| reflexivity].
    rewrite IH. destruct (map_result f l1) as [a | e]; simpl; [| reflexivity].
    now destruct (map_result f l2).
Qed.

Lemma write_header_header_text (fields : list string) (ntc : bool)
    (out : string) :
  write_header fields ntc out = (out ++ header_text fields ntc, Ok tt).
Proof. rewrite write_header_text. reflexivity. Qed.

Lemma process_line_text (fields : list string) (line : result value)
    (text : string) (out : string) :
  line_text fields line = Ok text ->
  process_line fields line out = (out ++ text, Ok tt).
Proof.
  unfold line_text, row_text, process_line, bind, lift.
  destruct line as [tweet | e]; simpl; [| discriminate].
  destruct (row_cells fields tweet) as [cells | e] eqn:Hc; simpl;
    [| discriminate].
  destruct (tweet_time tweet) as [time | e] eqn:Ht; simpl; [| discriminate].
  intros [= <-]. now apply process_tweet_row with (time := time).
Qed.

Lemma process_lines_text (fields : list string) (ls : list (result value))
    (texts : list string) (out : string) :
  map_result (line_text fields) ls = Ok texts ->
  for_each (process_line fields) ls out = (out ++ join "" texts, Ok tt).
Proof.
  revert texts out. induction ls as [| line ls IH]; intros texts out; simpl.
  - intros [= <-]. unfold ret, join. simpl. now rewrite append_nil_r.
  - destruct (line_text fields line) as [t | e] eqn:Ht; simpl; [| discriminate].
    destruct (map_result (line_text fields) ls) as [ts | e]; simpl;
      [| discriminate].
    intros [= <-]. unfold bind.
    rewrite (process_line_text _ _ _ _ Ht), (IH ts _ eq_refl).
    now rewrite join_empty_cons, append_assoc.
Qed.

Lemma process_lines_stop (fields : list string)
    (ls1 : list (result value)) (bad : result value)
    (ls2 : list (result value)) (texts : list string) (partial : string)
    (e : exn) (out : string) :
  map_result (line_text fields) ls1 = Ok texts ->
  process_line fields bad "" = (partial, Raise e) ->
  for_each (process_line fields) (ls1 ++ bad :: ls2) out
  = (out ++ join "" texts ++ partial, Raise e).
Proof.
  intros H1 Hbad. rewrite for_each_app. unfold bind.
  rewrite (process_lines_text _ _ _ _ H1).
  change (for_each (process_line fields) (bad :: ls2))
    with (bind (process_line fields bad)
            (fun _ => for_each (process_line fields) ls2)).
  unfold bind.
  rewrite (appends_process_line fields bad), Hbad. simpl.
  now rewrite append_assoc.
Qed.

Lemma for_enumerate_cons {A : Type} (body : nat -> A -> io unit) (i : nat)
    (x : A) (l : list A) (out : string) :
  for_enumerate body i (x :: l) out
  = match body i x out with
    | (o, Ok _) => for_enumerate body (S i) l o
    | (o, Raise e) => (o, Raise e)
    end.
Proof. reflexivity. Qed.

Lemma for_each_app_eq {A : Type} (body : A -> io unit) (l1 l2 : list A)
    (out : string) :
  for_each body (l1 ++ l2) out
  = match for_each body l1 out with
    | (o, Ok _) => for_each body l2 o
    | (o, Raise e) => (o, Raise e)
    end.
Proof. rewrite for_each_app. reflexivity. Qed.

(** A file that opens: the header if it is the first, then its lines. *)
Lemma process_file_opens (fields : list string) (ntc : bool) (i : nat)
    (f : infile) (out : string) :
  opens f = true ->
  process_file fields ntc i f out
  = for_each (process_line fields) (lines f)
      (if Nat.eqb i 0 then out ++ header_text fields ntc else out).
Proof.
  intros Hf. unfold opens in Hf. apply negb_true_iff in Hf.
  unfold process_file, open_input. rewrite Hf.
  unfold bind, ret. destruct (Nat.eqb i 0).
  - now rewrite write_header_header_text.
  - reflexivity.
Qed.

(** Files that open, from the second on, are read as one list of lines. *)
Lemma later_files_as_lines (fields : list string) (ntc : bool)
    (fs : list infile) (i : nat) (out : string) :
  forallb opens fs = true ->
  for_enumerate (process_file fields ntc) (S i) fs out
  = for_each (process_line fields) (all_lines fs) out.
Proof.
  revert i out. induction fs as [| f fs IH]; intros i out H.
  - reflexivity.
  - simpl in H. apply andb_prop in H. destruct H as [Hf Hfs].
    rewrite for_enumerate_cons, (process_file_opens _ _ _ _ _ Hf).
    unfold all_lines. simpl flat_map. rewrite for_each_app_eq. simpl Nat.eqb.
    cbv iota.
    destruct (for_each (process_line fields) (lines f) out) as [o [[] | e]].
    + now apply IH.
    + reflexivity.
Qed.

(** With the first, after the header. *)
Lemma files_as_lines (fields : list string) (ntc : bool) (f : infile)
    (fs : list infile) (out : string) :
  forallb opens (f :: fs) = true ->
  for_enumerate (process_file fields ntc) 0 (f :: fs) out
  = for_each (process_line fields) (all_lines (f :: fs))
      (out ++ header_text fields ntc).
Proof.
  intros H. simpl in H. apply andb_prop in H. destruct H as [Hf Hfs].
  rewrite for_enumerate_cons, (process_file_opens _ _ _ _ _ Hf).
  unfold all_lines. simpl flat_map. rewrite for_each_app_eq. simpl Nat.eqb.
  cbv iota.
  destruct (for_each (process_line fields) (lines f) _) as [o [[] | e]].
  - now apply later_files_as_lines.
  - reflexivity.
Qed.

Lemma for_enumerate_stops {A : Type} (body : nat -> A -> io unit)
    (l1 l2 : list A) (i : nat) (out out' : string) (e : exn) :
  for_enumerate body i l1 out = (out', Raise e) ->
  for_enumerate body i (l1 ++ l2) out = (out', Raise e).
Proof.
  revert i out. induction l1 as [| x l1 IH]; intros i out; simpl.
  - unfold ret. discriminate.
  - unfold bind. destruct (body i x out) as [o [[] | e']].
    + apply IH.
    + easy.
Qed.

(** X2.  A run in which every file opens and every line gives a row ends
    normally, and the output file holds the header line, once, and then
    the rows of all the tweets, in the order of the files and of their
    lines. *)
Theorem run_writes_header_then_rows (a : args) (texts : list string) :
  no_defaults a = false ->
  files a <> [] ->
  forallb opens (files a) = true ->
  map_result (line_text default_fields) (all_lines (files a)) = Ok texts ->
  main a
  = Finished (header_text default_fields (no_time_columns a) ++ join "" texts).
Proof.
  intros Hnd Hne Hopen Htexts. unfold main, fields_of. rewrite Hnd. simpl.
  destruct (files a) as [| f fs]; [contradiction |].
  rewrite (files_as_lines _ _ _ _ _ Hopen).
  now rewrite (process_lines_text _ _ _ _ Htexts).
Qed.

(** X3.  When a line stops the run, the output file keeps the header, the
    rows of all the lines before it and what that line wrote before it
    raised; the lines and the files after it are not read. *)
Theorem run_stops_at_first_failure (a : args) (fs rest : list infile)
    (ls1 : list (result value)) (bad : result value)
    (ls2 : list (result value)) (texts : list string) (partial : string)
    (e : exn) :
  no_defaults a = false ->
  files a = (fs ++ rest)%list ->
  forallb opens fs = true ->
  all_lines fs = (ls1 ++ bad :: ls2)%list ->
  map_result (line_text default_fields) ls1 = Ok texts ->
  process_line default_fields bad "" = (partial, Raise e) ->
  main a
  = Aborted (header_text default_fields (no_time_columns a)
             ++ join "" texts ++ partial) e.
Proof.
  intros Hnd Hfiles Hopen Hlines Htexts Hbad.
  unfold main (* the fields are the default ones *), fields_of.
  rewrite Hnd, Hfiles. simpl.
  destruct fs as [| f fs].
  { destruct ls1; discriminate Hlines. }
  rewrite (for_enumerate_stops _ (f :: fs) rest 0 ""
             (header_text default_fields (no_time_columns a)
              ++ join "" texts ++ partial) e).
  - reflexivity.
  - rewrite (files_as_lines _ _ _ _ _ Hopen), Hlines.
    now rewrite (process_lines_stop _ _ _ _ _ _ _ _ Htexts Hbad).
Qed.

Lemma process_file_later (fields : list string) (b b' : bool) (i : nat)
    (f : infile) :
  process_file fields b (S i) f = process_file fields b' (S i) f.
Proof. reflexivity. Qed.

Lemma for_enumerate_later (fields : list string) (b b' : bool)
    (fs : list infile) (i : nat) (out : string) :
  for_enumerate (process_file fields b) (S i) fs out
  = for_enumerate (process_file fields b') (S i) fs out.
Proof.
  revert i out. induction fs as [| f fs IH]; intros i out.
  - reflexivity.
  - rewrite !for_enumerate_cons, (process_file_later fields b b').
    destruct (process_file fields b' (S i) f out) as [o [[] | e]].
    + apply IH.
    + reflexivity.
Qed.

(** X11.  [--no_time_columns] changes the header line and nothing else:
    when the first file opens, the two runs write the same text after their
    headers and end in the same way. *)
Theorem time_flag_changes_header_only (a : args) (f : infile)
    (fs : list infile) :
  no_defaults a = false ->
  files a = f :: fs ->
  opens f = true ->
  exists body r,
    forall b,
      main (set_no_time_columns a b)
      = outcome_of (header_text default_fields b ++ body, r).
Proof.
  intros Hnd Hfiles Hf.
  pose (tail := fun b : bool =>
          bind (for_each (process_line default_fields) (lines f))
            (fun _ => for_enumerate (process_file default_fields b) 1 fs)).
  assert (Happ : forall b, appends (tail b)).
  { intros b. apply appends_bind.
    - apply appends_for_each. intros l. apply appends_process_line.
    - intros _. apply appends_for_enumerate. intros i x.
      apply appends_process_file. }
  assert (Hsame : forall b out, tail b out = tail true out).
  { intros b out. unfold tail, bind.
    destruct (for_each _ (lines f) out) as [o [[] | e]]; [| reflexivity].
    apply for_enumerate_later. }
  exists (fst (tail true "")), (snd (tail true "")). intros b.
  unfold main, set_no_time_columns, fields_of.
  cbn [files no_defaults no_time_columns].
  rewrite Hnd, Hfiles.
  change (Nat.eqb (List.length default_fields) 0) with false. cbv iota.
  assert (E : for_enumerate (process_file default_fields b) 0 (f :: fs) ""
              = tail b (header_text default_fields b)).
  { rewrite for_enumerate_cons, (process_file_opens _ _ _ _ _ Hf).
    reflexivity. }
  rewrite E, Hsame, (Happ true). reflexivity.
Qed.

(** ** Texts and their bytes *)

Lemma ascii_of_N_bit7 (n : N) :
  N.testbit (N_of_ascii (ascii_of_N n)) 7 = N.testbit n 7.
Proof.
  destruct n as [| p]; [reflexivity |].
  do 8 (destruct p as [p | p |]; try reflexivity).
Qed.

(** A byte with its high bit set is not a line feed. *)
Lemma high_byte_not_line_feed (k x : N) :
  N.testbit k 7 = true -> Ascii.eqb (byte (N.lor k x)) LF = false.
Proof.
  intros Hk. apply Ascii.eqb_neq. intros H.
  assert (Hbit : N.testbit (N_of_ascii (byte (N.lor k x))) 7 = true).
  { unfold byte. now rewrite ascii_of_N_bit7, N.lor_spec, Hk. }
  rewrite H in Hbit. discriminate Hbit.
Qed.

Lemma utf8_cp_blank (c : N) :
  replace_char LF " " (utf8_cp c)
  = utf8_cp (if (c =? 10)%N then 32%N else c).
Proof.
  destruct (c =? 10)%N eqn:E10.
  - apply N.eqb_eq in E10. now subst c.
  - unfold utf8_cp.
    destruct (c <? 128)%N eqn:E1.
    + cbn [replace_char].
      replace (Ascii.eqb (byte c) LF) with false; [reflexivity |].
      symmetry. apply Ascii.eqb_neq. intros H.
      apply N.eqb_neq in E10. apply E10.
      apply N.ltb_lt in E1.
      rewrite <- (N_ascii_embedding c) by lia.
      unfold byte in H. now rewrite H.
    + destruct (c <? 2048)%N; [| destruct (c <? 65536)%N];
        cbn [replace_char];
        now rewrite !high_byte_not_line_feed.
Qed.

(** X12.  The line feeds are replaced in the bytes of the encoded text,
    and that never cuts into a character of several bytes: the result is
    the encoding of the text in which every line feed is a blank. *)
Theorem line_feeds_replaced_in_text (s : unicode) :
  fix_text (JStr s) = Ok (quoted (utf8 (blank_line_feeds s)))
  /\ fix_text (JStr s) = fix_text (JStr (blank_line_feeds s)).
Proof.
  assert (H : forall t, replace_char LF " " (utf8 t) = utf8 (blank_line_feeds t)).
  { induction t as [| c t IH]; simpl; [reflexivity |].
    now rewrite replace_char_app, utf8_cp_blank, IH. }
  assert (H2 : blank_line_feeds (blank_line_feeds s) = blank_line_feeds s).
  { unfold blank_line_feeds. rewrite map_map. apply map_ext. intros c.
    destruct (c =? 10)%N eqn:E; [reflexivity | now rewrite E]. }
  split.
  - rewrite fix_text_str, H. reflexivity.
  - rewrite !fix_text_str, (H s), (H (blank_line_feeds s)), H2. reflexivity.
Qed.

Lemma decode_ascii_utf8 (b : string) (s : unicode) :
  decode_ascii b = Some s -> utf8 s = b /\ s = u b.
Proof.
  revert s. induction b as [| c b IH]; intros s; simpl.
  - now intros [= <-].
  - destruct (N_of_ascii c <? 128)%N eqn:E; [| discriminate].
    destruct (decode_ascii b) as [s' |]; simpl; [| discriminate].
    intros [= <-]. destruct (IH s' eq_refl) as [H1 H2].
    split.
    + simpl. unfold utf8_cp. rewrite E. simpl.
      unfold byte. now rewrite ascii_N_embedding, H1.
    + unfold u in *. simpl. now rewrite H2.
Qed.

Lemma replace_char_absent (a b : ascii) (s : string) :
  occurs a s = false -> replace_char a b s = s.
Proof.
  induction s as [| c s IH]; simpl; [reflexivity |].
  intros H. apply orb_false_iff in H. destruct H as [Hc Hs].
  now rewrite Hc, IH.
Qed.

(** X13.  An ASCII text without line feed comes out unchanged between its
    two quotes: taking the first and the last character off the cell gives
    the text back. *)
Theorem ascii_text_is_kept (b : string) (s : unicode) :
  decode_ascii b = Some s ->
  occurs LF b = false ->
  s = u b /\ fix_text (JStr s) = Ok (String DQUOTE (b ++ String DQUOTE "")).
Proof.
  intros Hdec Hlf. destruct (decode_ascii_utf8 _ _ Hdec) as [H1 H2].
  split; [exact H2 |].
  rewrite fix_text_str, H1. now rewrite replace_char_absent.
Qed.

(** ** Subscripts of sequences *)

Lemma seq_index_bounds {A : Type} (l : list A) (i : Z) :
  let n := Z.of_nat (List.length l) in
  (- n <= i < n ->
   exists x, seq_index l i = Ok x /\ nth_error l (Z.to_nat (i mod n)) = Some x)
  /\ (~ (- n <= i < n) -> seq_index l i = Raise IndexError).
Proof.
  intros n. unfold seq_index. fold n. split.
  - intros Hi.
    assert (Hmod : i mod n = if i <? 0 then i + n else i).
    { destruct (i <? 0) eqn:E.
      - apply Z.ltb_lt in E.
        rewrite <- (Z_mod_plus_full i 1 n), Z.mul_1_l.
        apply Z.mod_small. lia.
      - apply Z.ltb_ge in E. apply Z.mod_small. lia. }
    rewrite Hmod.
    set (j := if i <? 0 then i + n else i) in *.
    assert (Hj : 0 <= j < n) by (subst j; destruct (i <? 0) eqn:E;
      [apply Z.ltb_lt in E | apply Z.ltb_ge in E]; lia).
    replace ((j <? 0) || (n <=? j)) with false
      by (symmetry; apply orb_false_iff; split;
          [apply Z.ltb_ge | apply Z.leb_gt]; lia).
    destruct (nth_error l (Z.to_nat j)) as [x |] eqn:E.
    + now exists x.
    + apply nth_error_None in E. subst n. lia.
  - intros Hi.
    set (j := if i <? 0 then i + n else i) in *.
    assert (Hj : j < 0 \/ n <= j) by (subst j; destruct (i <? 0) eqn:E;
      [apply Z.ltb_lt in E | apply Z.ltb_ge in E]; lia).
    replace ((j <? 0) || (n <=? j)) with true; [reflexivity |].
    symmetry. apply orb_true_iff.
    destruct Hj; [left; apply Z.ltb_lt | right; apply Z.leb_le]; lia.
Qed.

(** X14.  A key that reads as the integer [i] picks from a list of [n]
    elements the element at [i], counted from the end when [i] is negative,
    as long as [-n <= i < n]; any other integer raises [IndexError]. *)
Theorem list_index_bounds (l : list value) (key : string) (i : Z) :
  py_int key = Ok i ->
  let n := Z.of_nat (List.length l) in
  (- n <= i < n ->
   exists x, subscript (JList l) key = Ok x
             /\ nth_error l (Z.to_nat (i mod n)) = Some x)
  /\ (~ (- n <= i < n) -> subscript (JList l) key = Raise IndexError).
Proof.
  intros Hint n.
  assert (E : subscript (JList l) key = seq_index l i).
  { unfold subscript. simpl. now rewrite Hint. }
  rewrite E. apply seq_index_bounds.
Qed.

(** ** Rows are single lines *)

Lemma uint_no_line_feed (d : Decimal.uint) :
  occurs LF (NilEmpty.string_of_uint d) = false.
Proof. induction d; simpl; auto. Qed.

Lemma dec_no_line_feed (z : Z) : occurs LF (dec z) = false.
Proof.
  unfold dec, NilZero.string_of_int, NilZero.string_of_uint.
  destruct (Z.to_int z) as [d | d]; destruct d; try reflexivity;
    simpl; apply uint_no_line_feed.
Qed.

Lemma hex_no_line_feed (w : nat) (n : N) : occurs LF (hex w n) = false.
Proof.
  revert n. induction w as [| w IH]; intros n; simpl; [reflexivity |].
  rewrite occurs_app, IH. simpl. rewrite orb_false_r.
  destruct (N.land n 15) as [| p]; [reflexivity |].
  do 4 (try destruct p as [p | p |]); reflexivity.
Qed.

Lemma byte_line_feed (c : N) :
  (c < 256)%N -> c <> 10%N -> Ascii.eqb (byte c) LF = false.
Proof.
  intros Hc Hne. apply Ascii.eqb_neq. intros H. apply Hne.
  rewrite <- (N_ascii_embedding c) by exact Hc.
  unfold byte in H. now rewrite H.
Qed.

Lemma repr_cp_no_line_feed (q c : N) :
  q = 34%N \/ q = 39%N -> occurs LF (repr_cp q c) = false.
Proof.
  intros Hq. unfold repr_cp.
  destruct ((c =? q)%N || (c =? 92)%N) eqn:E1.
  - apply orb_true_iff in E1.
    destruct E1 as [E | E]; apply N.eqb_eq in E; subst c;
      [destruct Hq; subst q |]; reflexivity.
  - destruct (65536 <=? c)%N;
      [rewrite occurs_app, hex_no_line_feed; reflexivity |].
    destruct (256 <=? c)%N eqn:E3;
      [rewrite occurs_app, hex_no_line_feed; reflexivity |].
    destruct (c =? 9)%N; [reflexivity |].
    destruct (c =? 10)%N eqn:E5; [reflexivity |].
    destruct (c =? 13)%N; [reflexivity |].
    destruct ((c <? 32)%N || (127 <=? c)%N);
      [rewrite occurs_app, hex_no_line_feed; reflexivity |].
    simpl. rewrite orb_false_r. apply byte_line_feed.
    + apply N.leb_gt in E3. exact E3.
    + now apply N.eqb_neq.
Qed.

Lemma occurs_join (c : ascii) (sep : string) (l : list string) :
  occurs c sep = false ->
  (forall x, In x l -> occurs c x = false) ->
  occurs c (join sep l) = false.
Proof.
  intros Hsep. unfold join. induction l as [| x l IH]; intros H.
  - reflexivity.
  - simpl. destruct l as [| y l].
    + apply H. now left.
    + rewrite !occurs_app, Hsep, (H x (or_introl eq_refl)). simpl.
      apply IH. intros z Hz. apply H. now right.
Qed.

Lemma repr_unicode_no_line_feed (s : unicode) :
  occurs LF (repr_unicode s) = false.
Proof.
  assert (Hq : repr_quote s = 34%N \/ repr_quote s = 39%N).
  { unfold repr_quote. destruct (_ && _); auto. }
  unfold repr_unicode.
  assert (Hbody : occurs LF (join "" (map (repr_cp (repr_quote s)) s)) = false).
  { apply occurs_join; [reflexivity |].
    intros x Hx. apply in_map_iff in Hx. destruct Hx as (c & <- & _).
    now apply repr_cp_no_line_feed. }
  simpl. rewrite occurs_app, Hbody.
  destruct Hq as [-> | ->]; reflexivity.
Qed.

Lemma py_repr_no_line_feed (v : value) :
  plain_floats v = true -> occurs LF (py_repr v) = false.
Proof.
  induction v as [| b | z | f | s | l IH | d IH] using json_nested_ind;
    intros Hplain.
  - reflexivity.
  - now destruct b.
  - simpl. rewrite occurs_app, dec_no_line_feed. now destruct (is_long z).
  - simpl in *. apply andb_prop in Hplain. destruct Hplain as [_ H].
    now apply negb_true_iff in H.
  - apply repr_unicode_no_line_feed.
  - simpl in *. rewrite occurs_app. simpl. rewrite orb_false_r.
    apply occurs_join; [reflexivity |].
    intros x Hx. apply in_map_iff in Hx. destruct Hx as (y & <- & Hy).
    rewrite Forall_forall in IH. apply IH; [exact Hy |].
    rewrite forallb_forall in Hplain. now apply Hplain.
  - simpl in *. rewrite occurs_app. simpl. rewrite orb_false_r.
    apply occurs_join; [reflexivity |].
    intros x Hx. apply in_map_iff in Hx. destruct Hx as ([k y] & <- & Hy).
    change (occurs LF (repr_unicode k ++ ": " ++ py_repr y) = false).
    rewrite !occurs_app, repr_unicode_no_line_feed. simpl.
    rewrite Forall_forall in IH. apply (IH (k, y) Hy).
    rewrite forallb_forall in Hplain. exact (Hplain (k, y) Hy).
Qed.

Lemma fix_text_no_line_feed (v : value) (cell : string) :
  plain_floats v = true -> fix_text v = Ok cell -> occurs LF cell = false.
Proof.
  intros Hplain.
  destruct v as [| b | z | f | s | l | d].
  - intros [= <-]. reflexivity.
  - destruct b; intros [= <-]; reflexivity.
  - intros [= <-]. apply dec_no_line_feed.
  - intros [= <-]. simpl in Hplain. apply andb_prop in Hplain.
    destruct Hplain as [H _]. now apply negb_true_iff in H.
  - rewrite fix_text_str. intros [= <-]. simpl.
    rewrite occurs_app, replace_char_removes by discriminate. reflexivity.
  - intros [= <-]. exact (py_repr_no_line_feed (JList l) Hplain).
  - intros [= <-]. exact (py_repr_no_line_feed (JDict d) Hplain).
Qed.

Lemma seq_index_in {A : Type} (l : list A) (i : Z) (x : A) :
  seq_index l i = Ok x -> In x l.
Proof.
  unfold seq_index. destruct (_ || _); [discriminate |].
  destruct (nth_error l _) as [y |] eqn:E; [| discriminate].
  intros [= <-]. now apply nth_error_In in E.
Qed.

Lemma dict_find_in (k : unicode) (d : list (unicode * value)) (x : value) :
  dict_find k d = Some x -> exists k', In (k', x) d.
Proof.
  induction d as [| [k' y] d IH]; simpl; [discriminate |].
  destruct (unicode_eqb k k').
  - intros [= <-]. exists k'. now left.
  - intros H. destruct (IH H) as (k2 & Hin). exists k2. now right.
Qed.

Lemma subscript_plain_floats (v : value) (key : string) (x : value) :
  subscript v key = Ok x -> plain_floats v = true -> plain_floats x = true.
Proof.
  unfold subscript.
  destruct v as [| b | z | f | s | l | d]; simpl;
    try (destruct (py_int key); simpl; discriminate).
  - destruct (py_int key) as [i | e]; simpl; [| discriminate].
    destruct (seq_index s i); simpl; [now intros [= <-] | discriminate].
  - destruct (py_int key) as [i | e]; simpl; [| discriminate].
    intros H Hplain. apply seq_index_in in H.
    rewrite forallb_forall in Hplain. now apply Hplain.
  - unfold dict_get. destruct (decode_ascii key) as [k |].
    + destruct (dict_find k d) as [y |] eqn:E; [| discriminate].
      intros [= <-] Hplain. apply dict_find_in in E. destruct E as (k' & Hin).
      rewrite forallb_forall in Hplain. exact (Hplain (k', y) Hin).
    + discriminate.
Qed.

Lemma walk_plain_floats (keys : list string) (v x : value) (nd nd' : bool) :
  walk keys v nd = Ok (x, nd') -> plain_floats v = true ->
  plain_floats x = true.
Proof.
  revert v nd. induction keys as [| key keys IH]; intros v nd; simpl.
  - now intros [= <- _].
  - destruct (is_none v); [apply IH |].
    destruct (subscript v key) as [y | e] eqn:E; simpl; [| discriminate].
    intros H Hplain. apply (IH _ _ H).
    now apply (subscript_plain_floats _ _ _ E).
Qed.

Lemma field_cell_no_line_feed (tweet : value) (field cell : string) :
  plain_floats tweet = true -> field_cell tweet field = Ok cell ->
  occurs LF cell = false.
Proof.
  intros Hplain. unfold field_cell.
  destruct (walk (split_on "," field) tweet false) as [[x nd] | e] eqn:E;
    simpl; [| discriminate].
  destruct nd.
  - now intros [= <-].
  - apply fix_text_no_line_feed. now apply (walk_plain_floats _ _ _ _ _ E).
Qed.

Lemma row_cells_no_line_feed (fields : list string) (tweet : value)
    (cells : list string) :
  plain_floats tweet = true ->
  row_cells fields tweet = Ok cells ->
  occurs LF (render cells) = false.
Proof.
  intros Hplain Hcells.
  unfold render. apply occurs_join; [reflexivity |].
  intros x Hx. apply in_map_iff in Hx. destruct Hx as (c & <- & Hc).
  rewrite occurs_app. simpl. rewrite orb_false_r.
  revert cells Hcells c Hc. unfold row_cells.
  induction fields as [| f fields IH]; intros cells; simpl.
  - intros [= <-] c [].
  - destruct (field_cell tweet f) as [c0 |] eqn:E0; simpl; [| discriminate].
    destruct (map_result (field_cell tweet) fields) as [cs |]; simpl;
      [| discriminate].
    intros [= <-] c [<- | Hc].
    + now apply (field_cell_no_line_feed tweet f).
    + now apply (IH cs eq_refl).
Qed.

(** X15.  Every row is one line: when no float of the tweet prints with a
    line feed, no cell of its row holds one, so the line feed that ends
    the row is the only one in it. *)
Theorem rows_are_single_lines (fields : list string) (tweet : value)
    (text : string) :
  plain_floats tweet = true ->
  row_text fields tweet = Ok text ->
  exists body, text = body ++ String LF "" /\ occurs LF body = false.
Proof.
  intros Hplain. unfold row_text.
  destruct (row_cells fields tweet) as [cells |] eqn:Hcells; simpl;
    [| discriminate].
  destruct (tweet_time tweet); simpl; [| discriminate].
  intros [= <-]. exists (render cells). split; [reflexivity |].
  now apply (row_cells_no_line_feed fields tweet).
Qed.

(** ** Other values under a key *)

(** X16.  A key that reads as an integer picks one character out of a
    text, as a text of its own, within the same bounds as for a list; the
    cell is then that character between quotes. *)
Theorem text_index (s : unicode) (key : string) (i : Z) :
  py_int key = Ok i ->
  let n := Z.of_nat (List.length s) in
  (- n <= i < n ->
   exists c, subscript (JStr s : value) key = Ok (JStr [ c ])
             /\ nth_error s (Z.to_nat (i mod n)) = Some c)
  /\ (~ (- n <= i < n) -> subscript (JStr s : value) key = Raise IndexError).
Proof.
  intros Hint n.
  assert (E : subscript (JStr s : value) key
              = rbind (seq_index s i) (fun c => Ok (JStr [ c ]))).
  { unfold subscript. simpl. now rewrite Hint. }
  rewrite E. destruct (seq_index_bounds s i) as [Hin Hout]. fold n in Hin, Hout.
  split.
  - intros Hi. destruct (Hin Hi) as (c & Hc & Hnth).
    exists c. now rewrite Hc.
  - intros Hi. now rewrite (Hout Hi).
Qed.

(** X17.  A number or a truth value under a key never gives a value: the
    walk stops with a [ValueError] when the key does not read as an
    integer, with a [TypeError] when it does. *)
Theorem scalar_under_key_raises (v : value) (key : string) :
  is_scalar v = true ->
  subscript v key
  = Raise (match py_int key with Ok _ => TypeError | Raise e => e end)
  /\ forall keys nodata,
       walk (key :: keys) v nodata
       = Raise (match py_int key with Ok _ => TypeError | Raise e => e end).
Proof.
  intros Hv.
  assert (H : subscript v key
              = Raise (match py_int key with
                       | Ok _ => TypeError
                       | Raise e => e
                       end)).
  { destruct v; try discriminate Hv; unfold subscript; simpl;
      now destruct (py_int key). }
  split; [exact H |].
  intros keys nodata. simpl. rewrite H.
  now destruct v.
Qed.

(** ** Runs that stop at a file *)

Lemma for_enumerate_app {A : Type} (body : nat -> A -> io unit)
    (l1 l2 : list A) (i : nat) (out : string) :
  for_enumerate body i (l1 ++ l2) out
  = match for_enumerate body i l1 out with
    | (o, Ok _) => for_enumerate body (i + List.length l1) l2 o
    | (o, Raise e) => (o, Raise e)
    end.
Proof.
  revert i out. induction l1 as [| x l1 IH]; intros i out.
  - simpl. unfold ret. now rewrite Nat.add_0_r.
  - change ((x :: l1) ++ l2)%list with (x :: (l1 ++ l2))%list.
    rewrite !for_enumerate_cons.
    destruct (body i x out) as [o [[] | e]]; [| reflexivity].
    rewrite IH. simpl List.length. now rewrite Nat.add_succ_r.
Qed.

(** X18.  A file that takes the branch for compressed files stops the run
    with [NameError] when its turn comes: the output keeps the header and
    the rows of the files before it, and is empty, without a header, when
    it is the first file. *)
Theorem unopened_file_stops_run (a : args) (fs : list infile) (g : infile)
    (rest : list infile) (texts : list string) :
  no_defaults a = false ->
  files a = (fs ++ g :: rest)%list ->
  forallb opens fs = true ->
  opens g = false ->
  map_result (line_text default_fields) (all_lines fs) = Ok texts ->
  main a
  = Aborted ((match fs with
              | [] => ""
              | _ :: _ => header_text default_fields (no_time_columns a)
              end) ++ join "" texts) NameError.
Proof.
  intros Hnd Hfiles Hopen Hg Htexts.
  assert (Hgz : forall i out,
             process_file default_fields (no_time_columns a) i g out
             = (out, Raise NameError)).
  { intros i out. unfold process_file, open_input, bind, lift.
    unfold opens in Hg. apply negb_false_iff in Hg. now rewrite Hg. }
  unfold main, fields_of. rewrite Hnd, Hfiles.
  change (Nat.eqb (List.length default_fields) 0) with false. cbv iota.
  rewrite for_enumerate_app.
  destruct fs as [| f fs].
  - simpl in Htexts. injection Htexts as <-.
    simpl for_enumerate at 1. unfold ret.
    now rewrite for_enumerate_cons, Hgz.
  - rewrite (files_as_lines _ _ _ _ _ Hopen).
    rewrite (process_lines_text _ _ _ _ Htexts).
    now rewrite for_enumerate_cons, Hgz.
Qed.

(** ** One line for each tweet *)

Lemma count_char_app (c : ascii) (s t : string) :
  count_char c (s ++ t) = (count_char c s + count_char c t)%nat.
Proof.
  induction s as [| d s IH]; simpl; [reflexivity |].
  rewrite IH. lia.
Qed.

Lemma count_char_absent (c : ascii) (s : string) :
  occurs c s = false -> count_char c s = O.
Proof.
  induction s as [| d s IH]; simpl; [reflexivity |].
  intros H. apply orb_false_iff in H. destruct H as [Hd Hs].
  now rewrite Hd, IH.
Qed.

Lemma lines_count (fields : list string) (ls : list (result value))
    (texts : list string) :
  forallb plain_floats (decoded ls) = true ->
  map_result (line_text fields) ls = Ok texts ->
  count_char LF (join "" texts) = List.length ls.
Proof.
  revert texts. induction ls as [| line ls IH]; intros texts Hplain; simpl.
  - now intros [= <-].
  - destruct (line_text fields line) as [t |] eqn:Ht; simpl; [| discriminate].
    destruct (map_result (line_text fields) ls) as [ts |]; simpl;
      [| discriminate].
    intros [= <-]. rewrite join_empty_cons, count_char_app.
    destruct line as [tweet | e]; [| discriminate Ht].
    simpl in Hplain. apply andb_prop in Hplain. destruct Hplain as [Hp Hps].
    simpl in Ht. unfold row_text in Ht.
    destruct (row_cells fields tweet) as [cells |] eqn:Hcells; simpl in Ht;
      [| discriminate].
    destruct (tweet_time tweet); simpl in Ht; [| discriminate].
    injection Ht as <-.
    rewrite count_char_app,
      (count_char_absent _ _ (row_cells_no_line_feed _ _ _ Hp Hcells)).
    simpl. f_equal. now apply IH.
Qed.

(** X19.  The output of a run that ends normally has one line for the
    header and one line for each tweet read, when no float in the tweets
    prints with a line feed. *)
Theorem finished_run_line_count (a : args) (texts : list string) :
  no_defaults a = false ->
  files a <> [] ->
  forallb opens (files a) = true ->
  forallb plain_floats (decoded (all_lines (files a))) = true ->
  map_result (line_text default_fields) (all_lines (files a)) = Ok texts ->
  exists out,
    main a = Finished out
    /\ count_char LF out = S (List.length (all_lines (files a))).
Proof.
  intros Hnd Hne Hopen Hplain Htexts.
  eexists. split.
  - unfold main, fields_of. rewrite Hnd. simpl.
    destruct (files a) as [| f fs]; [contradiction |].
    rewrite (files_as_lines _ _ _ _ _ Hopen).
    now rewrite (process_lines_text _ _ _ _ Htexts).
  - rewrite count_char_app, (lines_count _ _ _ Hplain Htexts).
    now destruct (no_time_columns a).
Qed.

End Further.

(** ** The further properties at given runs *)

(** X1, witness: [--no_defaults] with a field given, and the plain run. *)
Lemma no_defaults_exits_witness :
  main own_field_run = Exit 1
  /\ main (run_on [ sample_tweet ] false) <> Exit 1.
Proof.
  split.
  - apply (proj1 (no_defaults_exits (py := reference_python) own_field_run)).
    reflexivity.
  - apply (proj2 (no_defaults_exits (py := reference_python)
                    (run_on [ sample_tweet ] false))).
    reflexivity.
Defined.

(** X2, witness: the three tweets of [two_files]. *)
Lemma run_writes_header_then_rows_witness :
  exists texts,
    map_result (line_text default_fields) (all_lines (files two_files))
    = Ok texts
    /\ List.length texts = 3%nat
    /\ main two_files
       = Finished (header_text default_fields true ++ join "" texts).
Proof.
  eexists. split; [reflexivity |]. split; [reflexivity |].
  apply (run_writes_header_then_rows (py := reference_python) two_files).
  - reflexivity.
  - discriminate.
  - reflexivity.
  - reflexivity.
Defined.

(** X3, witness: [broken_run] stops in its second row. *)
Lemma run_stops_at_first_failure_witness :
  exists row,
    line_text default_fields (Ok sample_tweet) = Ok row
    /\ process_line default_fields
         (Ok (sample_with "user" (JList [ JInt 7 ]))) ""
       = ("42, ", Raise ValueError)
    /\ main broken_run
       = Aborted (header_text default_fields true ++ row ++ "42, ") ValueError.
Proof.
  eexists. split; [reflexivity |]. split; [reflexivity |].
  exact (run_stops_at_first_failure (py := reference_python) broken_run
           [ mk_infile "monday.json"
               [ Ok sample_tweet; Ok (sample_with "user" (JList [ JInt 7 ]));
                 Ok sample_tweet ] ]
           [ mk_infile "tuesday.json" [ Ok sample_tweet ] ]
           [ Ok sample_tweet ] (Ok (sample_with "user" (JList [ JInt 7 ])))
           [ Ok sample_tweet ] _ "42, " ValueError
           eq_refl eq_refl eq_refl eq_refl eq_refl eq_refl).
Defined.

(** X4, witness: the list for [user] met by the second field. *)
Lemma failing_field_leaves_cells_before_witness :
  let tweet := sample_with "user" (JList [ JInt 7 ]) in
  row_cells [ "id" ] tweet = Ok [ "42" ]
  /\ field_cell tweet "user,id" = Raise ValueError
  /\ process_tweet default_fields tweet "" = ("42, ", Raise ValueError).
Proof.
  intros tweet. split; [reflexivity |]. split; [reflexivity |].
  exact (failing_field_leaves_cells_before (py := reference_python) tweet
           [ "id" ] "user,id"
           [ "user,screen_name"; "geo,coordinates,0"; "geo,coordinates,1";
             "place,full_name"; "created_at"; "text" ]
           [ "42" ] ValueError "" eq_refl eq_refl).
Defined.

(** X5, witness: a creation time that is no date. *)
Lemma failing_time_leaves_open_row_witness :
  let tweet := sample_with "created_at" (JStr (u "yesterday")) in
  row_cells [ "id"; "text" ] tweet = Ok [ "42"; quoted "hello" ]
  /\ tweet_time tweet = Raise TypeError
  /\ process_tweet [ "id"; "text" ] tweet ""
     = (render [ "42"; quoted "hello" ], Raise TypeError).
Proof.
  intros tweet. split; [reflexivity |]. split; [reflexivity |].
  exact (failing_time_leaves_open_row (py := reference_python)
           [ "id"; "text" ] tweet [ "42"; quoted "hello" ] TypeError ""
           eq_refl eq_refl).
Defined.

(** X7, witness: a null [place] before [full_name]. *)
Lemma nodata_means_none_witness :
  walk [ "place"; "full_name" ] (sample_with "place" JNull) false
  = Ok (JNull, true)
  /\ (JNull : json string) = JNull.
Proof.
  split; [reflexivity |].
  exact (nodata_means_none (py := reference_python) [ "place"; "full_name" ]
           (sample_with "place" JNull) JNull eq_refl).
Defined.


(** X11, witness: the run on the sample tweet, with and without time
    columns. *)
Lemma time_flag_changes_header_only_witness :
  exists body r,
    forall b,
      main (set_no_time_columns (run_on [ sample_tweet ] false) b)
      = outcome_of (header_text default_fields b ++ body, r).
Proof.
  exact (time_flag_changes_header_only (py := reference_python)
           (run_on [ sample_tweet ] false)
           (mk_infile "tweets.json" [ Ok sample_tweet ]) []
           eq_refl eq_refl eq_refl).
Defined.

(** X13, witness: the text [hello]. *)
Lemma ascii_text_is_kept_witness :
  decode_ascii "hello" = Some (u "hello")
  /\ occurs LF "hello" = false
  /\ fix_text (JStr (u "hello") : json string) = Ok (quoted "hello").
Proof.
  split; [reflexivity |]. split; [reflexivity |].
  exact (proj2 (ascii_text_is_kept (py := reference_python) "hello"
                  (u "hello") eq_refl eq_refl)).
Defined.

(** X14, witness: the keys [-1] and [2] on a list of two. *)
Lemma list_index_bounds_witness :
  let l : list (json string) := [ JInt 53; JInt (-1) ] in
  (py_int "-1" = Ok (-1)
   /\ exists x, subscript (JList l) "-1" = Ok x
                /\ nth_error l 1 = Some x)
  /\ (py_int "2" = Ok 2 /\ subscript (JList l) "2" = Raise IndexError).
Proof.
  intros l. split.
  - split; [reflexivity |].
    apply (proj1 (list_index_bounds (py := reference_python) l "-1" (-1)
                    eq_refl)).
    simpl. lia.
  - split; [reflexivity |].
    apply (proj2 (list_index_bounds (py := reference_python) l "2" 2
                    eq_refl)).
    simpl. lia.
Defined.

(** X15, witness: the row of the sample tweet. *)
Lemma rows_are_single_lines_witness :
  exists text body,
    plain_floats sample_tweet = true
    /\ row_text default_fields sample_tweet = Ok text
    /\ text = body ++ String LF "" /\ occurs LF body = false.
Proof.
  destruct (rows_are_single_lines (py := reference_python) default_fields
              sample_tweet _ eq_refl eq_refl) as (body & Htext & Hbody).
  eexists _, body. split; [reflexivity |]. split; [reflexivity |].
  split; assumption.
Defined.

(** X16, witness: the second character of [hello]. *)
Lemma text_index_witness :
  py_int "1" = Ok 1
  /\ exists c, subscript (JStr (u "hello") : json string) "1" = Ok (JStr [ c ])
               /\ nth_error (u "hello") 1 = Some c.
Proof.
  split; [reflexivity |].
  apply (proj1 (text_index (py := reference_python) (u "hello") "1" 1 eq_refl)).
  simpl. lia.
Defined.

(** X17, witness: the number of [id] under the keys [str] and [0]. *)
Lemma scalar_under_key_raises_witness :
  is_scalar (JInt 42 : json string) = true
  /\ subscript (JInt 42 : json string) "str" = Raise ValueError
  /\ subscript (JInt 42 : json string) "0" = Raise TypeError
  /\ field_cell sample_tweet "id,str" = Raise ValueError.
Proof.
  split; [reflexivity |]. split; [| split].
  - exact (proj1 (scalar_under_key_raises (py := reference_python)
                    (JInt 42) "str" eq_refl)).
  - exact (proj1 (scalar_under_key_raises (py := reference_python)
                    (JInt 42) "0" eq_refl)).
  - reflexivity.
Defined.

(** X18, witness: [gz_run], and the same files in the other order. *)
Lemma unopened_file_stops_run_witness :
  (exists row,
     line_text default_fields (Ok sample_tweet) = Ok row
     /\ main gz_run
        = Aborted (header_text default_fields true ++ row) NameError)
  /\ main gz_first_run = Aborted "" NameError.
Proof.
  split.
  - eexists. split; [reflexivity |].
    exact (unopened_file_stops_run (py := reference_python) gz_run
             [ mk_infile "monday.json" [ Ok sample_tweet ] ]
             (mk_infile ".gz.gz" [ Ok sample_tweet ]) [] _
             eq_refl eq_refl eq_refl eq_refl eq_refl).
  - exact (unopened_file_stops_run (py := reference_python) gz_first_run []
             (mk_infile ".gz.gz" [ Ok sample_tweet ])
             [ mk_infile "monday.json" [ Ok sample_tweet ] ] []
             eq_refl eq_refl eq_refl eq_refl eq_refl).
Defined.

(** X19, witness: the four lines written by [two_files]. *)
Lemma finished_run_line_count_witness :
  exists out, main two_files = Finished out /\ count_char LF out = 4%nat.
Proof.
  destruct (finished_run_line_count (py := reference_python) two_files _
              eq_refl ltac:(discriminate) eq_refl eq_refl eq_refl)
    as (out & Hmain & Hcount).
  exists out. split; assumption.
Defined.
